(** * bonk-mcp: instruction building, submission pipeline, metadata upload
      and the launch script

    A shallow embedding of [src/bonk_mcp/utils.py] and
    [src/bonk_mcp/run_launch.py].  Python values that come out of JSON are an
    inductive type, [float] is the kernel's binary64, exceptions are a sum
    type, and every [await] on the network is a call to an oracle carried by
    the environment; the calls made are recorded in a trace. *)

From Stdlib Require Import ZArith List String Ascii Bool Lia Floats.
From Stdlib.Strings Require Import Byte.
Import ListNotations.

#[local] Set Warnings "-inexact-float,-register-all".
#[local] Open Scope string_scope.
#[local] Open Scope list_scope.
#[local] Open Scope Z_scope.

(* ================================================================= *)
(** ** The fragment of the Python runtime the two modules rely on *)

Module Py.

(** Exceptions.  [Exception cls msg] stands for an instance of [Exception]
    or of one of its subclasses ([cls] is the class name, [msg] is what
    [str(e)] gives); the other constructors are the [BaseException]s that an
    [except Exception] clause does not catch. *)
Inductive exn : Type :=
| Exception (cls msg : string)
| KeyboardInterrupt
| SystemExit (code : Z)
| BaseException (cls msg : string).

Definition str_exn (e : exn) : string :=
  match e with
  | Exception _ msg => msg
  | KeyboardInterrupt => ""
  | SystemExit code => ""
  | BaseException _ msg => msg
  end.

Inductive result (A : Type) : Type :=
| Ok (a : A)
| Raise (e : exn).
Arguments Ok {A} a.
Arguments Raise {A} e.

Definition bind {A B} (r : result A) (k : A -> result B) : result B :=
  match r with
  | Ok a => k a
  | Raise e => Raise e
  end.

(** [try: r  except Exception as e: h e] *)
Definition except_Exception {A} (r : result A) (h : string -> string -> result A)
  : result A :=
  match r with
  | Raise (Exception cls msg) => h cls msg
  | _ => r
  end.

Definition TypeError {A} (msg : string) : result A := Raise (Exception "TypeError" msg).
Definition KeyError {A} (key : string) : result A := Raise (Exception "KeyError" key).

(** *** [str] *)

(** [s.startswith(p)] *)
Definition startswith (s p : string) : bool := String.prefix p s.

(** [needle in hay] on two strings. *)
Fixpoint contains (needle hay : string) : bool :=
  String.prefix needle hay
  || match hay with
     | EmptyString => false
     | String _ rest => contains needle rest
     end.

(** The white space that [str.isspace] accepts and [str.strip] removes, as
    it stands in a UTF-8 string.  In one byte: U+0009..U+000D, U+001C..U+001F
    and U+0020. *)
Definition isspace (c : ascii) : bool :=
  let n := nat_of_ascii c in
  (Nat.leb 9 n && Nat.leb n 13) || (Nat.leb 28 n && Nat.leb n 32).

(** In two bytes: U+0085 (C2 85) and U+00A0 (C2 A0). *)
Definition isspace2 (a b : ascii) : bool :=
  let y := nat_of_ascii b in
  Nat.eqb (nat_of_ascii a) 194 && (Nat.eqb y 133 || Nat.eqb y 160).

(** In three bytes: U+1680 (E1 9A 80), U+2000..U+200A (E2 80 80..8A), U+2028
    and U+2029 (E2 80 A8, A9), U+202F (E2 80 AF), U+205F (E2 81 9F) and
    U+3000 (E3 80 80). *)
Definition isspace3 (a b c : ascii) : bool :=
  let x := nat_of_ascii a in
  let y := nat_of_ascii b in
  let z := nat_of_ascii c in
  (Nat.eqb x 225 && Nat.eqb y 154 && Nat.eqb z 128)
  || (Nat.eqb x 226 && Nat.eqb y 128
      && ((Nat.leb 128 z && Nat.leb z 138)
          || Nat.eqb z 168 || Nat.eqb z 169 || Nat.eqb z 175))
  || (Nat.eqb x 226 && Nat.eqb y 129 && Nat.eqb z 159)
  || (Nat.eqb x 227 && Nat.eqb y 128 && Nat.eqb z 128).

(** [s.lstrip()]: the white-space characters [s] starts with are removed. *)
Fixpoint lstrip (s : string) : string :=
  match s with
  | EmptyString => EmptyString
  | String a rest =>
      if isspace a then lstrip rest
      else
        match rest with
        | EmptyString => s
        | String b rest2 =>
            if isspace2 a b then lstrip rest2
            else
              match rest2 with
              | EmptyString => s
              | String c rest3 => if isspace3 a b c then lstrip rest3 else s
              end
        end
  end.

(** [s.rstrip()]: [s] is cut where what is left of it is white space
    only. *)
Fixpoint rstrip (s : string) : string :=
  match s with
  | EmptyString => EmptyString
  | String a rest =>
      match lstrip s with
      | EmptyString => EmptyString
      | _ => String a (rstrip rest)
      end
  end.

(** [s.strip()] *)
Definition strip (s : string) : string := rstrip (lstrip s).

(** [bytes] objects and [s.encode("utf-8")] (a [string] already is its
    UTF-8 byte sequence). *)
Definition bytes : Type := list byte.
Definition encode (s : string) : bytes := list_byte_of_string s.

(** *** [float] and [int] *)

(** [float(z)]: round to nearest even; [OverflowError] when [z] is out of
    the binary64 range. *)
Definition float_of_int (z : Z) : result float :=
  let f := SF2Prim (binary_normalize prec emax z 0 false) in
  if PrimFloat.is_infinity f
  then Raise (Exception "OverflowError" "int too large to convert to float")
  else Ok f.

(** [int(f)]: truncation toward zero; NaN and the infinities raise. *)
Definition int_of_float (f : float) : result Z :=
  match Prim2SF f with
  | S754_zero _ => Ok 0
  | S754_infinity _ =>
      Raise (Exception "OverflowError" "cannot convert float infinity to integer")
  | S754_nan => Raise (Exception "ValueError" "cannot convert float NaN to integer")
  | S754_finite s m e =>
      let mag := if 0 <=? e then Z.shiftl (Z.pos m) e else Z.shiftr (Z.pos m) (- e) in
      Ok (if s then - mag else mag)
  end.

(** *** Dynamically typed values: what [json.loads] and [r.json()] produce

    A [dict] is the list of its items, in order, each key occurring once. *)

Inductive pyval : Type :=
| VNone
| VBool (b : bool)
| VInt (z : Z)
| VFloat (f : float)
| VStr (s : string)
| VList (items : list pyval)
| VDict (items : list (string * pyval)).

Definition type_name (v : pyval) : string :=
  match v with
  | VNone => "NoneType"
  | VBool _ => "bool"
  | VInt _ => "int"
  | VFloat _ => "float"
  | VStr _ => "str"
  | VList _ => "list"
  | VDict _ => "dict"
  end.

(** Truth value, as [if v:] and [not v] test it. *)
Definition truthy (v : pyval) : bool :=
  match v with
  | VNone => false
  | VBool b => b
  | VInt z => negb (z =? 0)
  | VFloat f => negb (PrimFloat.eqb f 0%float)
  | VStr s => negb (String.eqb s "")
  | VList items => match items with [] => false | _ => true end
  | VDict items => match items with [] => false | _ => true end
  end.

Fixpoint assoc (key : string) (items : list (string * pyval)) : option pyval :=
  match items with
  | [] => None
  | (k, v) :: rest => if String.eqb key k then Some v else assoc key rest
  end.

(** [key in v] for a string [key]. *)
Definition has_key (key : string) (v : pyval) : result bool :=
  match v with
  | VDict items => Ok (match assoc key items with Some _ => true | None => false end)
  | VList items =>
      Ok (existsb (fun x => match x with VStr s => String.eqb s key | _ => false end) items)
  | VStr s => Ok (contains key s)
  | _ => TypeError ("argument of type '" ++ type_name v ++ "' is not iterable")%string
  end.

(** [v[key]] for a string [key]. *)
Definition getitem (v : pyval) (key : string) : result pyval :=
  match v with
  | VDict items =>
      match assoc key items with
      | Some x => Ok x
      | None => KeyError key
      end
  | VList _ => TypeError "list indices must be integers or slices, not str"
  | VStr _ => TypeError "string indices must be integers, not 'str'"
  | _ => TypeError ("'" ++ type_name v ++ "' object is not subscriptable")%string
  end.

(** [v.get(key)]: only a [dict] has the method. *)
Definition dict_get (v : pyval) (key : string) : result pyval :=
  match v with
  | VDict items =>
      Ok (match assoc key items with Some x => x | None => VNone end)
  | _ =>
      Raise (Exception "AttributeError"
               ("'" ++ type_name v ++ "' object has no attribute 'get'")%string)
  end.

(** [v.get(key, default)] *)
Definition dict_get_default (v : pyval) (key : string) (default : pyval)
  : result pyval :=
  match v with
  | VDict items =>
      Ok (match assoc key items with Some x => x | None => default end)
  | _ =>
      Raise (Exception "AttributeError"
               ("'" ++ type_name v ++ "' object has no attribute 'get'")%string)
  end.

(** The elements [for x in v] visits. *)
Definition iterate (v : pyval) : result (list pyval) :=
  match v with
  | VList items => Ok items
  | VDict items => Ok (map (fun kv => VStr (fst kv)) items)
  | VStr s => Ok (map (fun c => VStr (String c EmptyString)) (list_ascii_of_string s))
  | _ => TypeError ("'" ++ type_name v ++ "' object is not iterable")%string
  end.

(** Numbers: [bool] is a subclass of [int]. *)
Inductive number : Type :=
| NInt (z : Z)
| NFloat (f : float).

Definition as_number (v : pyval) : option number :=
  match v with
  | VBool b => Some (NInt (if b then 1 else 0))
  | VInt z => Some (NInt z)
  | VFloat f => Some (NFloat f)
  | _ => None
  end.

(** [a + b] *)
Definition add (a b : pyval) : result pyval :=
  match as_number a, as_number b with
  | Some (NInt x), Some (NInt y) => Ok (VInt (x + y))
  | Some (NInt x), Some (NFloat g) =>
      bind (float_of_int x) (fun f => Ok (VFloat (f + g)))
  | Some (NFloat f), Some (NInt y) =>
      bind (float_of_int y) (fun g => Ok (VFloat (f + g)))
  | Some (NFloat f), Some (NFloat g) => Ok (VFloat (f + g))
  | _, _ =>
      match a, b with
      | VStr s, VStr t => Ok (VStr (s ++ t)%string)
      | VList s, VList t => Ok (VList (s ++ t))
      | _, _ =>
          TypeError ("unsupported operand type(s) for +: '" ++ type_name a
                     ++ "' and '" ++ type_name b ++ "'")%string
      end
  end.

(** [a / d] for a float divisor [d]. *)
Definition truediv_float (a : pyval) (d : float) : result float :=
  match as_number a with
  | Some n =>
      bind (match n with NInt z => float_of_int z | NFloat f => Ok f end)
        (fun f =>
           if PrimFloat.eqb d 0%float
           then Raise (Exception "ZeroDivisionError" "float division by zero")
           else Ok (f / d)%float)
  | None =>
      TypeError ("unsupported operand type(s) for /: '" ++ type_name a
                 ++ "' and 'float'")%string
  end.


End Py.

(* ================================================================= *)
(** ** Effects: the world outside the process and the trace of calls *)

Module Eff.
Import Py.

(** What the process does to the outside world, in the order it does it. *)
Inductive event : Type :=
| Submit                      (* client.send_transaction *)
| ConfirmTx                   (* client.confirm_transaction *)
| Sleep (seconds : Z)         (* asyncio.sleep *)
| Rpc (method : string)       (* a query through the solana client *)
| Get (url : string)          (* session.get *)
| Post (url : string)         (* session.post *)
| ReadFile (path : string)    (* open(path, "rb") *)
| NewKeypair                  (* Keypair() *)
| Call (function : string).   (* a call into bonk_mcp.core.letsbonk *)

Section Monad.
Context {W : Type}.

(** [world] is the state of everything the process talks to (the RPC node,
    the random generator); [trace] lists the calls made so far. *)
Record state : Type := { world : W; trace : list event }.

Definition M (A : Type) : Type := state -> result A * state.

Definition ret {A} (a : A) : M A := fun s => (Ok a, s).

Definition raise {A} (e : exn) : M A := fun s => (Raise e, s).

Definition mbind {A B} (m : M A) (k : A -> M B) : M B :=
  fun s =>
    match m s with
    | (Ok a, s') => k a s'
    | (Raise e, s') => (Raise e, s')
    end.

Definition lift {A} (r : result A) : M A := fun s => (r, s).

Definition emit (ev : event) : M unit :=
  fun s => (Ok tt, {| world := world s; trace := trace s ++ [ev] |}).

(** A call whose answer depends on, and changes, the world. *)
Definition ask {A} (ev : event) (op : W -> result A * W) : M A :=
  fun s =>
    let (r, w) := op (world s) in
    (r, {| world := w; trace := trace s ++ [ev] |}).

(** [try: body  except Exception as e: handler e]; what the body did before
    it raised stays done. *)
Definition try_except {A} (body : M A) (handler : string -> string -> M A) : M A :=
  fun s =>
    match body s with
    | (Raise (Exception cls msg), s') => handler cls msg s'
    | other => other
    end.

(** [try: body  except cls: handler]: one class, no subclasses. *)
Definition try_except_class {A} (cls : string) (body : M A) (handler : M A) : M A :=
  fun s =>
    match body s with
    | (Raise (Exception c msg), s') =>
        if String.eqb c cls then handler s' else (Raise (Exception c msg), s')
    | other => other
    end.

End Monad.
Arguments state W : clear implicits.
Arguments M W A : clear implicits.

(** Where control goes after a block that may [return] from the function. *)
Inductive flow (A R : Type) : Type :=
| Next (a : A)
| Return (r : R).
Arguments Next {A R} a.
Arguments Return {A R} r.

End Eff.

Declare Scope eff_scope.
Delimit Scope eff_scope with eff.
Notation "x <- m ;; k" := (Eff.mbind m (fun x => k))
  (at level 100, m at next level, right associativity) : eff_scope.
Notation "' p <- m ;; k" := (Eff.mbind m (fun x => match x with p => k end))
  (at level 100, p pattern, m at next level, right associativity) : eff_scope.
Notation "m ;;; k" := (Eff.mbind m (fun _ => k))
  (at level 100, right associativity) : eff_scope.

(* ================================================================= *)
(** ** The types of [solders] and the collaborators of the two modules *)

Module Solders.
Import Py.

(** A 32-byte address. *)
Record Pubkey : Type := { pubkey_bytes : bytes }.

(** [Keypair]: [keypair_pubkey] is the method [pubkey()]. *)
Record Keypair : Type := { secret : bytes; keypair_pubkey : Pubkey }.

Definition Signature : Type := bytes.

Record AccountMeta : Type :=
  { pubkey : Pubkey; is_signer : bool; is_writable : bool }.

(** [Instruction(program_id, data, accounts)] *)
Record Instruction : Type :=
  { program_id : Pubkey; data : bytes; accounts : list AccountMeta }.

Record Transaction : Type :=
  { recent_blockhash : bytes; fee_payer : Pubkey; instructions : list Instruction }.

Record TxOpts : Type := { skip_preflight : bool; max_retries : Z }.

Record CreateAccountParams : Type :=
  { from_pubkey : Pubkey;
    to_pubkey : Pubkey;
    lamports : Z;
    space : Z;
    owner : Pubkey }.

(** What [get_account_info] finds at an address. *)
Record Account : Type :=
  { account_lamports : Z; account_owner : Pubkey; account_data : bytes }.

End Solders.

Module Collab.
Import Py Solders.

(** The constants [utils.py] imports from [bonk_mcp.settings], a module that
    is not among the sources.  Each address field is the address the constant
    names, that is [Pubkey.from_string(str(C))]; [SOL_DECIMAL] is the
    non-negative integer exponent of [10 ** SOL_DECIMAL]. *)
Class Settings : Type :=
  { TOKEN_PROGRAM : Pubkey;
    ASSOC_TOKEN_ACC_PROG : Pubkey;
    SYSTEM_PROGRAM : Pubkey;
    RENT : Pubkey;
    WSOL_TOKEN : Pubkey;
    SOL_DECIMAL : Z }.

(** Functions of the libraries the code calls: [solders], [base58], [json]. *)
Class Libraries : Type :=
  { (* Pubkey.find_program_address(seeds, program_id): address and bump *)
    find_program_address : list bytes -> Pubkey -> Pubkey * Z;
    (* solders.system_program.create_account *)
    create_account : CreateAccountParams -> result Instruction;
    (* str(pubkey) *)
    pubkey_str : Pubkey -> string;
    (* base58.b58decode *)
    b58decode : string -> result bytes;
    (* Keypair.from_bytes *)
    keypair_from_bytes : bytes -> result Keypair;
    (* json.loads; a malformed text raises JSONDecodeError *)
    json_loads : string -> result pyval }.

(** The network and the operating system, as the process sees them.  The
    submission and the random generator act on the world [W]; a query is
    answered as a function of the request. *)
Record Env (W : Type) : Type :=
  { (* bonk_mcp.settings.client *)
    send_transaction :
      Transaction -> list Keypair -> TxOpts -> W -> result Signature * W;
    confirm_transaction : Signature -> W -> result pyval * W;
    get_account_info : Pubkey -> result (option Account);
    get_minimum_balance_for_rent_exemption : Z -> result Z;
    (* Keypair() *)
    new_keypair : W -> Keypair * W;
    (* aiohttp: status and body of a GET; status and text of a POST of raw
       data or of a JSON value; the decoded JSON answer of an RPC POST *)
    http_get : string -> result (Z * bytes);
    http_post_data : string -> bytes -> list (string * string) -> result (Z * string);
    http_post_json : string -> pyval -> list (string * string) -> result (Z * string);
    http_post_rpc : string -> pyval -> result pyval;
    (* open(path, "rb").read() *)
    read_file : string -> result bytes;
    (* os.getenv *)
    getenv : string -> option string;
    (* bonk_mcp.core.letsbonk *)
    launch_token_with_buy :
      Keypair -> Keypair -> string -> string -> pyval -> Z -> string -> string ->
      string -> result pyval;
    create_buy_tx :
      Keypair -> Pubkey -> float -> float -> result (Transaction * list Keypair) }.

Arguments send_transaction {W}.
Arguments confirm_transaction {W}.
Arguments get_account_info {W}.
Arguments get_minimum_balance_for_rent_exemption {W}.
Arguments new_keypair {W}.
Arguments http_get {W}.
Arguments http_post_data {W}.
Arguments http_post_json {W}.
Arguments http_post_rpc {W}.
Arguments read_file {W}.
Arguments getenv {W}.
Arguments launch_token_with_buy {W}.
Arguments create_buy_tx {W}.

End Collab.

(* ================================================================= *)
(** ** [src/bonk_mcp/utils.py] *)

Module Utils.
Import Py Eff Solders Collab.
#[local] Open Scope eff_scope.

(** SPL token instruction discriminators *)
Definition SPL_TOKEN_INITIALIZE_ACCOUNT : bytes := [x01].
Definition SPL_TOKEN_CLOSE_ACCOUNT : bytes := [x09].

(** The names the module binds: its [import] statements (lines 1-27), its
    two constants and its functions. *)
Definition utils_globals : list string :=
  [ "struct"; "traceback"; "aiohttp"; "json"; "Optional"; "Tuple";
    "Pubkey"; "Instruction"; "AccountMeta"; "Keypair";
    "set_compute_unit_limit"; "set_compute_unit_price"; "Transaction";
    "CreateAccountParams"; "create_account"; "TxOpts"; "RPCException";
    "client"; "UNIT_PRICE"; "UNIT_BUDGET"; "TOKEN_PROGRAM"; "SOL_DECIMAL";
    "WSOL_TOKEN"; "ASSOC_TOKEN_ACC_PROG"; "SYSTEM_PROGRAM"; "RENT";
    "SPL_TOKEN_INITIALIZE_ACCOUNT"; "SPL_TOKEN_CLOSE_ACCOUNT";
    "buffer_from_string"; "setup_transaction"; "get_associated_token_address";
    "create_associated_token_account_instruction"; "create_or_get_token_account";
    "send_and_confirm_transaction"; "download_image"; "prepare_ipfs";
    "calculate_tokens_receive"; "create_temporary_wsol_account";
    "get_close_wsol_instruction"; "get_token_account_balance" ].

(** The built-in names the module uses. *)
Definition builtins : list string :=
  [ "print"; "str"; "int"; "len"; "bytes"; "range"; "enumerate"; "open";
    "Exception" ].

(** Reading a global name inside a function: the module's names, then the
    built-ins, else [NameError]. *)
Definition load_name (globals : list string) (name : string) : result unit :=
  if existsb (String.eqb name) (globals ++ builtins)
  then Ok tt
  else Raise (Exception "NameError" ("name '" ++ name ++ "' is not defined")%string).

(** The value [send_and_confirm_transaction] returns: [txn_sig.value], the
    confirmation status, or [False]. *)
Inductive sent : Type :=
| SentSignature (signature : Signature)
| SentStatus (status : pyval)
| SentFalse.

(** [if success:] on such a value; a signature and a status are objects
    without a false value. *)
Definition sent_truthy (r : sent) : bool :=
  match r with
  | SentFalse => false
  | _ => true
  end.

Section Functions.
Context `{Settings} `{Libraries} {W : Type} (env : Env W).

(** The functions below follow the source line by line; calls of [print]
    have no effect on what the functions return or call and are left out. *)

(** Lines 55-60. *)
Definition get_associated_token_address (owner mint : Pubkey) : Pubkey :=
  let token_program_pubkey := TOKEN_PROGRAM in
  let assoc_prog := ASSOC_TOKEN_ACC_PROG in
  let seeds :=
    [pubkey_bytes owner; pubkey_bytes token_program_pubkey; pubkey_bytes mint] in
  let (ata, _) := find_program_address seeds assoc_prog in
  ata.

(** Lines 63-88. *)
Definition create_associated_token_account_instruction
  (payer owner mint : Pubkey) : Pubkey * Instruction :=
  let ata := get_associated_token_address owner mint in
  let assoc_prog := ASSOC_TOKEN_ACC_PROG in
  let token_prog := TOKEN_PROGRAM in
  let system_prog := SYSTEM_PROGRAM in
  let rent_sysvar := RENT in
  let metas :=
    [ {| pubkey := payer; is_signer := true; is_writable := true |};
      {| pubkey := ata; is_signer := false; is_writable := true |};
      {| pubkey := owner; is_signer := false; is_writable := false |};
      {| pubkey := mint; is_signer := false; is_writable := false |};
      {| pubkey := system_prog; is_signer := false; is_writable := false |};
      {| pubkey := token_prog; is_signer := false; is_writable := false |};
      {| pubkey := rent_sysvar; is_signer := false; is_writable := false |} ] in
  let ix := {| program_id := assoc_prog; data := []; accounts := metas |} in
  (ata, ix).

(** Lines 91-112. *)
Definition create_or_get_token_account
  (payer owner mint : Pubkey) : M W (Pubkey * option Instruction) :=
  let ata := get_associated_token_address owner mint in
  found <- try_except
             (info <- (emit (Rpc "getAccountInfo") ;;;
                       lift (get_account_info env ata)) ;;
              match info with
              | Some _ => ret (Return (ata, @None Instruction))
              | None => ret (Next tt)
              end)
             (fun _ _ => ret (Next tt)) ;;
  match found with
  | Return r => ret r
  | Next _ =>
      let (ata, ix) := create_associated_token_account_instruction payer owner mint in
      ret (ata, Some ix)
  end.

(** [await asyncio.sleep(seconds)], the name [asyncio] being read from the
    globals of the module the call is written in. *)
Definition asyncio_sleep (globals : list string) (seconds : Z) : M W unit :=
  lift (load_name globals "asyncio") ;;; emit (Sleep seconds).

(** Lines 123-142: the body of [for attempt in range(1, 4)], over the
    attempts left.  [break] and the end of the loop both lead to the
    [return False] of line 143. *)
Fixpoint submit_loop (globals : list string) (txn : Transaction)
  (signers : list Keypair) (skip_preflight confirm : bool)
  (attempts : list Z) (backoff : Z) : M W sent :=
  match attempts with
  | [] => ret SentFalse
  | attempt :: rest =>
      try_except
        (txn_sig <- ask Submit
                      (send_transaction env txn signers
                         {| skip_preflight := skip_preflight; max_retries := 1 |}) ;;
         if confirm
         then status <- ask ConfirmTx (confirm_transaction env txn_sig) ;;
              ret (SentStatus status)
         else ret (SentSignature txn_sig))
        (fun _ err_str =>
           if contains "429" err_str || contains "Too Many Requests" err_str
           then
             if attempt =? 3
             then ret SentFalse
             else asyncio_sleep globals backoff ;;;
                  submit_loop globals txn signers skip_preflight confirm rest
                    (backoff * 2)
           else ret SentFalse)
  end.

(** Lines 118-143. *)
Definition send_and_confirm_transaction (txn : Transaction)
  (signers : list Keypair) (skip_preflight confirm : bool) : M W sent :=
  submit_loop utils_globals txn signers skip_preflight confirm [1; 2; 3] 1.

(** *** WSOL and IPFS logic *)

(** Lines 149-160. *)
Definition download_image (image_url : string) : M W (option bytes) :=
  try_except
    (response <- (emit (Get image_url) ;;; lift (http_get env image_url)) ;;
     let '(status, body) := response in
     if status =? 200 then ret (Some body) else ret None)
    (fun _ _ => ret None).

Definition CRLF : string := String (ascii_of_nat 13) (String (ascii_of_nat 10) "").
Definition DQUOTE : string := String (ascii_of_nat 34) "".

Definition PINATA_GATEWAY : string :=
  "https://sapphire-working-koi-276.mypinata.cloud/ipfs/".
Definition DEFAULT_IMAGE_URL : string :=
  "https://sapphire-working-koi-276.mypinata.cloud/ipfs/bafybeihpy352xnqgn74nrjj6bgxndrss5nbqix4kfhwfanoyo766tgwzz4".
Definition IMAGE_UPLOAD_URL : string := "https://gated.chat/upload/img".
Definition METADATA_UPLOAD_URL : string := "https://gated.chat/upload/meta".

Definition boundary : string := "----WebKitFormBoundarymkE1BAuPXiGrhrdB".

Definition multipart_body (data_to_upload : bytes) : bytes :=
  encode ("--" ++ boundary ++ CRLF)%string
  ++ encode ("Content-Disposition: form-data; name=" ++ DQUOTE ++ "image" ++ DQUOTE
             ++ "; filename=" ++ DQUOTE ++ "image.jpg" ++ DQUOTE ++ CRLF)%string
  ++ encode ("Content-Type: image/jpeg" ++ CRLF ++ CRLF)%string
  ++ data_to_upload
  ++ encode (CRLF ++ "--" ++ boundary ++ "--" ++ CRLF)%string.

Definition image_headers : list (string * string) :=
  [ ("accept", "application/json, text/plain, */*");
    ("accept-language", "en-US,en;q=0.9");
    ("content-type", ("multipart/form-data; boundary=" ++ boundary)%string);
    ("sec-fetch-dest", "empty");
    ("sec-fetch-mode", "cors");
    ("sec-fetch-site", "cross-site");
    ("referrer", "https://letsbonk.fun/") ].

Definition metadata_headers : list (string * string) :=
  [ ("accept", "application/json, text/plain, */*");
    ("accept-language", "en-US,en;q=0.9");
    ("content-type", "application/json");
    ("sec-fetch-dest", "empty");
    ("sec-fetch-mode", "cors");
    ("sec-fetch-site", "cross-site");
    ("referrer", "https://letsbonk.fun/");
    ("origin", "https://letsbonk.fun") ].

(** [if data:] on an optional [bytes] value and [if s:] on an optional
    [str]: [None] and the empty value are false. *)
Definition bytes_truthy (data : option bytes) : bool :=
  match data with
  | Some (_ :: _) => true
  | _ => false
  end.

Definition str_truthy (s : option string) : bool :=
  match s with
  | Some (String _ _) => true
  | _ => false
  end.

Definition optional_str (s : option string) : pyval :=
  match s with
  | Some text => VStr text
  | None => VNone
  end.

(** Lines 180-193: the bytes to upload, from [image_data], else [file], else
    a download of [image_url]. *)
Definition resolve_image_bytes (image_url : option string)
  (image_data : option bytes) (file : option string) : M W (option bytes) :=
  if bytes_truthy image_data then ret image_data
  else if str_truthy file then
    let path := match file with Some path => path | None => "" end in
    try_except
      (content <- (emit (ReadFile path) ;;; lift (read_file env path)) ;;
       ret (Some content))
      (fun _ _ => ret None)
  else if str_truthy image_url then
    download_image (match image_url with Some url => url | None => "" end)
  else ret None.

(** Lines 194-228: the image upload.  [Next u] carries the value of the
    variable [image_url] after the block; [Return VNone] is line 228. *)
Definition upload_image (data_to_upload : bytes) (image_url : pyval)
  : M W (flow pyval pyval) :=
  let body := multipart_body data_to_upload in
  response <- (emit (Post IMAGE_UPLOAD_URL) ;;;
               lift (http_post_data env IMAGE_UPLOAD_URL body image_headers)) ;;
  let '(status, response_text) := response in
  image_url <-
    (if status =? 200
     then
       if startswith response_text "https://"
       then ret (VStr (strip response_text))
       else
         try_except_class "JSONDecodeError"
           (result <- lift (json_loads response_text) ;;
            lift (dict_get result "url"))
           (ret image_url)
     else ret image_url) ;;
  if negb (truthy image_url) then ret (Return VNone) else ret (Next image_url).

Definition build_metadata (name symbol description twitter telegram website : string)
  (image_url : pyval) : pyval :=
  VDict
    ([ ("name", VStr name);
       ("symbol", VStr symbol);
       ("description", VStr description);
       ("createdOn", VStr "https://bonk.fun");
       ("image", image_url) ]
     ++ (if String.eqb twitter "" then [] else [("twitter", VStr twitter)])
     ++ (if String.eqb telegram "" then [] else [("telegram", VStr telegram)])
     ++ (if String.eqb website "" then [] else [("website", VStr website)])).

(** Lines 258-277: the metadata upload and what the function returns. *)
Definition upload_metadata (metadata : pyval) : M W pyval :=
  response <- (emit (Post METADATA_UPLOAD_URL) ;;;
               lift (http_post_json env METADATA_UPLOAD_URL metadata metadata_headers)) ;;
  let '(status, response_text) := response in
  if status =? 200
  then
    if startswith response_text "https://"
    then ret (VStr (strip response_text))
    else
      parsed <- try_except_class "JSONDecodeError"
                  (result <- lift (json_loads response_text) ;;
                   metadata_uri <- lift (dict_get result "url") ;;
                   if truthy metadata_uri
                   then ret (Return metadata_uri)
                   else ret (Next tt))
                  (ret (Next tt)) ;;
      match parsed with
      | Return metadata_uri => ret metadata_uri
      | Next _ => ret VNone
      end
  else ret VNone.

(** Lines 163-280: [prepare_ipfs]; the result is a URI, or [VNone]. *)
Definition prepare_ipfs (name symbol description twitter telegram website : string)
  (image_url : option string) (image_data : option bytes) (file : option string)
  : M W pyval :=
  try_except
    (image <-
       (if str_truthy image_url
           && startswith (match image_url with Some url => url | None => "" end)
                PINATA_GATEWAY
        then ret (Next (optional_str image_url))
        else
          data_to_upload <- resolve_image_bytes image_url image_data file ;;
          uploaded <-
            (if bytes_truthy data_to_upload
             then upload_image
                    (match data_to_upload with Some content => content | None => [] end)
                    (optional_str image_url)
             else ret (Next (optional_str image_url))) ;;
          match uploaded with
          | Return r => ret (Return r)
          | Next image_url =>
              if negb (truthy image_url)
              then ret (Next (VStr DEFAULT_IMAGE_URL))
              else ret (Next image_url)
          end) ;;
     match image with
     | Return r => ret r
     | Next image_url =>
         upload_metadata
           (build_metadata name symbol description twitter telegram website image_url)
     end)
    (fun _ _ => ret VNone).

(** Lines 301-344: [create_temporary_wsol_account]; the address, the two
    instructions and the keypair of the new account. *)
Definition create_temporary_wsol_account (payer_pubkey : Pubkey) (amount : float)
  : M W (Pubkey * list Instruction * Keypair) :=
  wsol_keypair <- ask NewKeypair (fun w => let (k, w') := new_keypair env w in (Ok k, w')) ;;
  let wsol_token_account := keypair_pubkey wsol_keypair in
  min_rent <- try_except
                (emit (Rpc "getMinimumBalanceForRentExemption") ;;;
                 lift (get_minimum_balance_for_rent_exemption env 165))
                (fun _ _ => ret 2039280) ;;
  scale <- lift (float_of_int (10 ^ SOL_DECIMAL)) ;;
  base_units <- lift (int_of_float (amount * scale)%float) ;;
  let lamports := min_rent + base_units in
  create_wsol_account_ix <-
    lift (create_account
            {| from_pubkey := payer_pubkey;
               to_pubkey := wsol_token_account;
               lamports := lamports;
               space := 165;
               owner := TOKEN_PROGRAM |}) ;;
  let init_wsol_account_ix :=
    {| program_id := TOKEN_PROGRAM;
       data := SPL_TOKEN_INITIALIZE_ACCOUNT;
       accounts :=
         [ {| pubkey := wsol_token_account; is_signer := false; is_writable := true |};
           {| pubkey := WSOL_TOKEN; is_signer := false; is_writable := false |};
           {| pubkey := payer_pubkey; is_signer := false; is_writable := false |};
           {| pubkey := RENT; is_signer := false; is_writable := false |} ] |} in
  ret (wsol_token_account, [create_wsol_account_ix; init_wsol_account_ix], wsol_keypair).

(** Lines 347-362. *)
Definition get_close_wsol_instruction (wsol_token_account owner : Pubkey) : Instruction :=
  {| program_id := TOKEN_PROGRAM;
     data := SPL_TOKEN_CLOSE_ACCOUNT;
     accounts :=
       [ {| pubkey := wsol_token_account; is_signer := false; is_writable := true |};
         {| pubkey := owner; is_signer := false; is_writable := true |};
         {| pubkey := owner; is_signer := true; is_writable := false |} ] |}.

End Functions.
End Utils.

(* ================================================================= *)
(** ** [src/bonk_mcp/run_launch.py] *)

Module RunLaunch.
Import Py Eff Solders Collab.
#[local] Open Scope eff_scope.

(** Configuration *)
Definition NAME : string := "CHLADIK".
Definition SYMBOL : string := "DICK".
Definition DESCRIPTION : string := "GIANT COCK".
Definition IMAGE_URL : string :=
  "https://ipfs.io/ipfs/bafkreib2irepj4xxku6eovlbbmnb5wbkktyt6pecexdjfxhxvmuwpnirae".
Definition INITIAL_BUY_SOL : float := 0.05%float.

(** The names the script binds at module level (lines 1-39 and its
    functions). *)
Definition run_launch_globals : list string :=
  [ "asyncio"; "os"; "sys"; "base58"; "ssl"; "aiohttp"; "json"; "Optional";
    "Keypair"; "Pubkey"; "AsyncClient"; "Confirmed"; "certifi"; "SSL_CONTEXT";
    "launch_token_with_buy"; "create_buy_tx"; "send_and_confirm_transaction";
    "prepare_ipfs"; "NAME"; "SYMBOL"; "DESCRIPTION"; "IMAGE_URL"; "RPC_URL";
    "KEYPAIR_B58"; "INITIAL_BUY_SOL"; "validate_environment";
    "make_keypair_from_base58"; "test_ssl_connection";
    "prepare_ipfs_with_ssl_fix"; "get_wallet_balance"; "get_token_balance";
    "do_initial_buy"; "main" ].

(** What the script prints that the claims speak of. *)
Inductive output : Type :=
| Line (text : string)
| Traceback (e : exn).        (* traceback.print_exc() *)

Section Script.
Context `{Settings} `{Libraries} {W : Type} (env : Env W).

(** Lines 37-38. *)
Definition RPC_URL : string :=
  match getenv env "RPC_URL" with
  | Some url => url
  | None => "https://api.mainnet-beta.solana.com"
  end.

Definition KEYPAIR_B58 : option string := getenv env "KEYPAIR".

(** Lines 43-48; [sys.exit(1)] raises [SystemExit]. *)
Definition validate_environment : M W unit :=
  if Utils.str_truthy KEYPAIR_B58 then ret tt else raise (SystemExit 1).

(** Lines 51-59. *)
Definition make_keypair_from_base58 (b58 : string) : M W Keypair :=
  try_except
    (private_key_bytes <- lift (b58decode b58) ;;
     if negb (Z.of_nat (List.length private_key_bytes) =? 64)
     then raise (Exception "ValueError" "Expected 64 bytes keypair")
     else lift (keypair_from_bytes private_key_bytes))
    (fun _ _ => raise (SystemExit 1)).

(** Lines 62-72. *)
Definition test_ssl_connection : M W unit :=
  let probe (url : string) : M W unit :=
    try_except (emit (Get url) ;;; lift (http_get env url) ;;; ret tt)
      (fun _ _ => ret tt) in
  probe "https://ipfs.io" ;;; probe "https://api.mainnet-beta.solana.com".

(** Lines 75-88; the swap of [aiohttp.ClientSession] changes the TLS context
    only. *)
Definition prepare_ipfs_with_ssl_fix (name symbol description image_url : string)
  : M W pyval :=
  Utils.prepare_ipfs env name symbol description "" "" "" (Some image_url) None None.

Definition rpc_payload (method : string) (params : list pyval) : pyval :=
  VDict [ ("jsonrpc", VStr "2.0"); ("id", VInt 1); ("method", VStr method);
          ("params", VList params) ].

(** Lines 91-107. *)
Definition get_wallet_balance (pubkey : Pubkey) : M W float :=
  try_except
    (let payload := rpc_payload "getBalance" [VStr (pubkey_str pubkey)] in
     data <- (emit (Post RPC_URL) ;;; lift (http_post_rpc env RPC_URL payload)) ;;
     present <- lift (has_key "result" data) ;;
     if present
     then
       result <- lift (getitem data "result") ;;
       lamports <- lift (getitem result "value") ;;
       lift (truediv_float lamports 1e9%float)
     else ret 0%float)
    (fun _ _ => ret 0%float).

(** [acc["account"]["data"]["parsed"]["info"]["tokenAmount"]["uiAmount"]] *)
Definition ui_amount (acc : pyval) : result pyval :=
  bind (getitem acc "account") (fun account =>
  bind (getitem account "data") (fun data =>
  bind (getitem data "parsed") (fun parsed =>
  bind (getitem parsed "info") (fun info =>
  bind (getitem info "tokenAmount") (fun tokenAmount =>
  getitem tokenAmount "uiAmount"))))).

(** The loop of lines 131-133 from the running [total]. *)
Fixpoint sum_amounts (accounts : list pyval) (total : pyval) : result pyval :=
  match accounts with
  | [] => Ok total
  | acc :: rest =>
      bind (ui_amount acc) (fun amt_str =>
      bind (add total (match amt_str with VNone => VInt 0 | _ => amt_str end))
        (fun total => sum_amounts rest total))
  end.

(** Lines 110-138. *)
Definition get_token_balance (owner_pubkey mint_address : string) : M W pyval :=
  try_except
    (let payload :=
       rpc_payload "getTokenAccountsByOwner"
         [ VStr owner_pubkey;
           VDict [("mint", VStr mint_address)];
           VDict [("encoding", VStr "jsonParsed")] ] in
     res <- (emit (Post RPC_URL) ;;; lift (http_post_rpc env RPC_URL payload)) ;;
     present <- lift (has_key "result" res) ;;
     listed <- (if present
                then result <- lift (getitem res "result") ;;
                     value <- lift (getitem result "value") ;;
                     ret (truthy value)
                else ret false) ;;
     if listed
     then
       result <- lift (getitem res "result") ;;
       accounts <- lift (getitem result "value") ;;
       items <- lift (iterate accounts) ;;
       lift (sum_amounts items (VInt 0))
     else ret (VFloat 0%float))
    (fun _ _ => ret VNone).

(** *** Core *)

(** Lines 157-168: the retry loop of [do_initial_buy] over the attempts
    left. *)
Fixpoint buy_loop (buy_txn : Transaction) (signers : list Keypair)
  (attempts : list Z) : M W bool :=
  match attempts with
  | [] => ret false
  | attempt :: rest =>
      done <- try_except
                (success <- Utils.send_and_confirm_transaction env buy_txn signers
                              true false ;;
                 ret (Utils.sent_truthy success))
                (fun _ _ => ret false) ;;
      if (done : bool) then ret true
      else Utils.asyncio_sleep run_launch_globals (1 + attempt) ;;;
           buy_loop buy_txn signers rest
  end.

(** Lines 144-170. *)
Definition do_initial_buy (payer_keypair : Keypair) (mint_pubkey : Pubkey)
  (amount_sol : float) (pdas : pyval) : M W bool :=
  let minimum_amount_out := 0%float in
  built <- (emit (Call "create_buy_tx") ;;;
            lift (create_buy_tx env payer_keypair mint_pubkey amount_sol
                    minimum_amount_out)) ;;
  let '(buy_txn, extra_signers) := built in
  buy_loop buy_txn (payer_keypair :: extra_signers) [1; 2; 3].

(** Lines 178-187 of [main]: up to the balance that was fetched. *)
Definition main_setup : M W (Keypair * Keypair * float) :=
  validate_environment ;;;
  test_ssl_connection ;;;
  payer <- make_keypair_from_base58
             (match KEYPAIR_B58 with Some b58 => b58 | None => "" end) ;;
  mint <- ask NewKeypair (fun w => let (k, w') := new_keypair env w in (Ok k, w')) ;;
  balance <- get_wallet_balance (keypair_pubkey payer) ;;
  ret (payer, mint, balance).

(** Lines 193-239 of [main]: metadata, launch, buy, verification. *)
Definition main_launch (payer mint : Keypair) : M W unit :=
  uri <- prepare_ipfs_with_ssl_fix NAME SYMBOL DESCRIPTION IMAGE_URL ;;
  if negb (truthy uri) then ret tt
  else
    launch_result <- (emit (Call "launch_token_with_buy") ;;;
                      lift (launch_token_with_buy env payer mint NAME SYMBOL uri 6
                              "1000000000000000" "793100000000000" "85000000000")) ;;
    error <- lift (dict_get launch_result "error") ;;
    if truthy error then ret tt
    else
      pdas <- lift (dict_get_default launch_result "pdas" (VDict [])) ;;
      base_token_account <- lift (dict_get launch_result "base_token_account") ;;
      bought <- do_initial_buy payer (keypair_pubkey mint) INITIAL_BUY_SOL pdas ;;
      if negb bought then ret tt
      else
        token_balance <- get_token_balance (pubkey_str (keypair_pubkey payer))
                           (pubkey_str (keypair_pubkey mint)) ;;
        ret tt.

(** Lines 173-239: the setup, the balance gate of lines 189-191, the
    launch. *)
Definition main : M W unit :=
  setup <- main_setup ;;
  let '(payer, mint, balance) := setup in
  if (balance <? INITIAL_BUY_SOL + 0.1)%float then ret tt
  else main_launch payer mint.

(** Lines 242-250: the [if __name__ == "__main__"] block, given how
    [asyncio.run(main())] ended; what is printed and the status the
    interpreter exits with (0 at the end of the script, the code of a
    [SystemExit], 1 for another exception nobody caught). *)
Definition script_end (ran : result unit) : list output * Z :=
  match ran with
  | Ok _ => ([], 0)
  | Raise KeyboardInterrupt => ([Line "Cancelled by user"], 0)
  | Raise (Exception cls msg) =>
      ([Line ("Fatal error: " ++ msg)%string; Traceback (Exception cls msg)], 0)
  | Raise (SystemExit code) => ([], code)
  | Raise (BaseException cls msg) => ([Traceback (BaseException cls msg)], 1)
  end.

Definition script (s : state W) : list output * Z := script_end (fst (main s)).

End Script.
End RunLaunch.

(* ================================================================= *)
(** ** Arithmetic on Python numbers *)

Module Arith.
Import Py.

(** [a / b] on two [int]s: the quotient rounded to the nearest float, ties
    to even. *)
Definition int_truediv (a b : Z) : result float :=
  if b =? 0 then Raise (Exception "ZeroDivisionError" "division by zero")
  else
    let negative := xorb (a <? 0) (b <? 0) in
    if a =? 0 then Ok (if negative then (-0)%float else 0%float)
    else
      let '(q, e, l) := SFdiv_core_binary prec emax (Z.abs a) 0 (Z.abs b) 0 in
      let f := SF2Prim (binary_round_aux prec emax negative q e l) in
      if PrimFloat.is_infinity f
      then Raise (Exception "OverflowError"
                    "integer division result too large for a float")
      else Ok f.

(** The float an operand of mixed arithmetic is converted to. *)
Definition to_float (n : number) : result float :=
  match n with
  | NInt z => float_of_int z
  | NFloat f => Ok f
  end.

Definition mixed (op : float -> float -> float) (a b : number) : result number :=
  bind (to_float a) (fun f => bind (to_float b) (fun g => Ok (NFloat (op f g)))).

(** [a * b], [a + b], [a - b] *)
Definition mul (a b : number) : result number :=
  match a, b with
  | NInt x, NInt y => Ok (NInt (x * y))
  | _, _ => mixed PrimFloat.mul a b
  end.

Definition add (a b : number) : result number :=
  match a, b with
  | NInt x, NInt y => Ok (NInt (x + y))
  | _, _ => mixed PrimFloat.add a b
  end.

Definition sub (a b : number) : result number :=
  match a, b with
  | NInt x, NInt y => Ok (NInt (x - y))
  | _, _ => mixed PrimFloat.sub a b
  end.

(** [a / b] *)
Definition truediv (a b : number) : result number :=
  match a, b with
  | NInt x, NInt y => bind (int_truediv x y) (fun f => Ok (NFloat f))
  | _, _ =>
      bind (to_float a) (fun f =>
      bind (to_float b) (fun g =>
      if PrimFloat.eqb g 0%float
      then Raise (Exception "ZeroDivisionError" "float division by zero")
      else Ok (NFloat (f / g)%float)))
  end.

(** [int(a)] *)
Definition to_int (a : number) : result Z :=
  match a with
  | NInt z => Ok z
  | NFloat f => int_of_float f
  end.

Definition value (n : number) : pyval :=
  match n with
  | NInt z => VInt z
  | NFloat f => VFloat f
  end.

End Arith.

(* ================================================================= *)
(** ** [src/bonk_mcp/utils.py]: the length-prefixed buffer and the curve *)

Module UtilsRest.
Import Py.

(** The byte of value [z mod 256]. *)
Definition byte_of (z : Z) : byte :=
  match Byte.of_N (Z.to_N (z mod 256)) with
  | Some b => b
  | None => x00
  end.

(** [struct.pack("<I", n)]: four bytes, least significant first;
    [struct.error] outside the range of an unsigned 32-bit integer. *)
Definition struct_pack_I (n : Z) : result bytes :=
  if (0 <=? n) && (n <? 2 ^ 32)
  then Ok [byte_of n; byte_of (n / 2 ^ 8); byte_of (n / 2 ^ 16); byte_of (n / 2 ^ 24)]
  else Raise (Exception "struct.error"
                "'I' format requires 0 <= number <= 4294967295").

(** Lines 34-38. *)
Definition buffer_from_string (string_data : string) : result bytes :=
  let str_bytes := encode string_data in
  let length := Z.of_nat (List.length str_bytes) in
  bind (struct_pack_I length) (fun prefix => Ok (prefix ++ str_bytes)).

(** Lines 283-298, on numbers ([int] or [float]); the defaults of
    [previous_sol] and [slippage] are 30 and 5. *)
Definition calculate_tokens_receive (sol_amount previous_sol slippage : number)
  : result pyval :=
  let LAMPORTS_PER_SOL := 10 ^ 9 in
  let TOKEN_DECIMALS := 10 ^ 6 in
  let INITIAL_TOKENS := 1073000191 * TOKEN_DECIMALS in
  let K := 32190005730 * TOKEN_DECIMALS in
  bind (Arith.mul previous_sol (NInt (10 ^ LAMPORTS_PER_SOL))) (fun scaled_previous =>
  bind (Arith.to_int scaled_previous) (fun previous_lamports =>
  bind (Arith.mul sol_amount (NInt (10 ^ LAMPORTS_PER_SOL))) (fun scaled_amount =>
  bind (Arith.to_int scaled_amount) (fun added_lamports =>
  let new_lamports := previous_lamports + added_lamports in
  bind (Arith.truediv (NInt previous_lamports) (NInt LAMPORTS_PER_SOL)) (fun previous =>
  bind (Arith.truediv (NInt K) previous) (fun sold_before =>
  bind (Arith.sub (NInt INITIAL_TOKENS) sold_before) (fun current_tokens =>
  bind (Arith.truediv (NInt new_lamports) (NInt LAMPORTS_PER_SOL)) (fun next =>
  bind (Arith.truediv (NInt K) next) (fun sold_after =>
  bind (Arith.sub (NInt INITIAL_TOKENS) sold_after) (fun new_tokens =>
  bind (Arith.sub new_tokens current_tokens) (fun difference =>
  bind (Arith.truediv difference (NInt TOKEN_DECIMALS)) (fun tokens_received =>
  bind (Arith.truediv slippage (NInt 100)) (fun fraction =>
  bind (Arith.add (NInt 1) fraction) (fun factor =>
  bind (Arith.mul sol_amount factor) (fun max_sol_cost =>
  Ok (VDict [ ("token_amount", Arith.value tokens_received);
              ("max_sol_cost", Arith.value max_sol_cost) ])))))))))))))))).

End UtilsRest.

(* ================================================================= *)
(** ** The RPC answers of the token-balance query, and a test bench *)

Module Rpc.
Import Py.

(** One entry of [getTokenAccountsByOwner] under [jsonParsed]: the amount is
    a float or null. *)
Definition token_account (ui_amount : option float) : pyval :=
  VDict [("account",
    VDict [("data",
      VDict [("parsed",
        VDict [("info",
          VDict [("tokenAmount",
            VDict [("uiAmount",
              match ui_amount with
              | Some amount => VFloat amount
              | None => VNone
              end)])])])])])].

Definition token_accounts_response (amounts : list (option float)) : pyval :=
  VDict [ ("jsonrpc", VStr "2.0");
          ("result", VDict [ ("context", VDict [("slot", VInt 1)]);
                             ("value", VList (map token_account amounts)) ]);
          ("id", VInt 1) ].




Definition balance_response (lamports : Z) : pyval :=
  VDict [ ("jsonrpc", VStr "2.0");
          ("result", VDict [ ("context", VDict [("slot", VInt 1)]);
                             ("value", VInt lamports) ]);
          ("id", VInt 1) ].

End Rpc.

Module Bench.
Import Py Eff Solders Collab.

Definition address (tag : byte) : Pubkey := {| pubkey_bytes := repeat tag 32 |}.
Definition keypair (tag : byte) : Keypair :=
  {| secret := repeat tag 64; keypair_pubkey := address tag |}.

Definition settings : Settings :=
  {| TOKEN_PROGRAM := address x01;
     ASSOC_TOKEN_ACC_PROG := address x02;
     SYSTEM_PROGRAM := address x03;
     RENT := address x04;
     WSOL_TOKEN := address x05;
     SOL_DECIMAL := 9 |}.

Definition libraries : Libraries :=
  {| find_program_address :=
       fun seeds program => ({| pubkey_bytes := firstn 32 (List.concat seeds) |}, 255);
     create_account :=
       fun params =>
         if (0 <=? lamports params) && (lamports params <? 2 ^ 64)
         then Ok {| program_id := address x03;
                    data := [];
                    accounts :=
                      [ {| pubkey := from_pubkey params; is_signer := true;
                           is_writable := true |};
                        {| pubkey := to_pubkey params; is_signer := true;
                           is_writable := true |} ] |}
         else Raise (Exception "OverflowError" "lamports out of range");
     pubkey_str := fun p => string_of_list_byte (pubkey_bytes p);
     b58decode := fun text => Ok (repeat x07 64);
     keypair_from_bytes := fun raw => Ok (keypair x07);
     json_loads := fun text => Raise (Exception "JSONDecodeError" "Expecting value") |}.

Definition transaction : Transaction :=
  {| recent_blockhash := repeat x00 32; fee_payer := address x07; instructions := [] |}.

(** A node that answers every submission with [submit_error], holds
    [lamports] for every wallet and lists [amounts] for every owner; an image
    host that serves one byte; an upload service that rejects images with
    [image_status] and accepts metadata. *)
Definition env (submit_error : string) (lamports : Z) (image_status : Z)
  (amounts : list (option float)) (launch : result pyval) : Env nat :=
  {| send_transaction :=
       fun _ _ _ sent => (Raise (Exception "RPCException" submit_error), S sent);
     confirm_transaction := fun _ sent => (Ok VNone, sent);
     get_account_info := fun _ => Ok None;
     get_minimum_balance_for_rent_exemption := fun _ => Ok 2039280;
     new_keypair := fun sent => (keypair x09, sent);
     http_get := fun _ => Ok (200, [x2a]);
     http_post_data := fun _ _ _ => Ok (image_status, "upstream error");
     http_post_json := fun _ _ _ => Ok (200, "https://gated.chat/meta/1");
     http_post_rpc :=
       fun _ payload =>
         match getitem payload "method" with
         | Ok (VStr "getBalance") => Ok (Rpc.balance_response lamports)
         | _ => Ok (Rpc.token_accounts_response amounts)
         end;
     read_file := fun _ => Raise (Exception "FileNotFoundError" "no such file");
     getenv := fun name => if String.eqb name "KEYPAIR" then Some "secret" else None;
     launch_token_with_buy := fun _ _ _ _ _ _ _ _ _ => launch;
     create_buy_tx := fun _ _ _ _ => Ok (transaction, []) |}.

Definition start : state nat := {| world := 0%nat; trace := [] |}.

(** Two answers of the launch: an empty result, and an exception. *)
Definition quiet : result pyval := Ok (VDict []).
Definition failing_launch : result pyval :=
  Raise (Exception "RuntimeError" "launch failed").

End Bench.

(* ================================================================= *)
(** ** Variations of the test bench *)

Module Rig.
Import Py Eff Solders Collab.

(** The bench environment with one collaborator replaced. *)
Section Replace.
Context {W : Type}.

Definition with_send (f : W -> result Signature * W) (e : Env W) : Env W :=
  {| send_transaction := fun _ _ _ w => f w;
     confirm_transaction := confirm_transaction e;
     get_account_info := get_account_info e;
     get_minimum_balance_for_rent_exemption := get_minimum_balance_for_rent_exemption e;
     new_keypair := new_keypair e;
     http_get := http_get e;
     http_post_data := http_post_data e;
     http_post_json := http_post_json e;
     http_post_rpc := http_post_rpc e;
     read_file := read_file e;
     getenv := getenv e;
     launch_token_with_buy := launch_token_with_buy e;
     create_buy_tx := create_buy_tx e |}.

Definition with_confirm (f : Signature -> W -> result pyval * W) (e : Env W) : Env W :=
  {| send_transaction := send_transaction e;
     confirm_transaction := f;
     get_account_info := get_account_info e;
     get_minimum_balance_for_rent_exemption := get_minimum_balance_for_rent_exemption e;
     new_keypair := new_keypair e;
     http_get := http_get e;
     http_post_data := http_post_data e;
     http_post_json := http_post_json e;
     http_post_rpc := http_post_rpc e;
     read_file := read_file e;
     getenv := getenv e;
     launch_token_with_buy := launch_token_with_buy e;
     create_buy_tx := create_buy_tx e |}.

Definition with_account_info (f : Pubkey -> result (option Account)) (e : Env W) : Env W :=
  {| send_transaction := send_transaction e;
     confirm_transaction := confirm_transaction e;
     get_account_info := f;
     get_minimum_balance_for_rent_exemption := get_minimum_balance_for_rent_exemption e;
     new_keypair := new_keypair e;
     http_get := http_get e;
     http_post_data := http_post_data e;
     http_post_json := http_post_json e;
     http_post_rpc := http_post_rpc e;
     read_file := read_file e;
     getenv := getenv e;
     launch_token_with_buy := launch_token_with_buy e;
     create_buy_tx := create_buy_tx e |}.

Definition with_rent (f : Z -> result Z) (e : Env W) : Env W :=
  {| send_transaction := send_transaction e;
     confirm_transaction := confirm_transaction e;
     get_account_info := get_account_info e;
     get_minimum_balance_for_rent_exemption := f;
     new_keypair := new_keypair e;
     http_get := http_get e;
     http_post_data := http_post_data e;
     http_post_json := http_post_json e;
     http_post_rpc := http_post_rpc e;
     read_file := read_file e;
     getenv := getenv e;
     launch_token_with_buy := launch_token_with_buy e;
     create_buy_tx := create_buy_tx e |}.


Definition with_image_answer (r : result (Z * string)) (e : Env W) : Env W :=
  {| send_transaction := send_transaction e;
     confirm_transaction := confirm_transaction e;
     get_account_info := get_account_info e;
     get_minimum_balance_for_rent_exemption := get_minimum_balance_for_rent_exemption e;
     new_keypair := new_keypair e;
     http_get := http_get e;
     http_post_data := fun _ _ _ => r;
     http_post_json := http_post_json e;
     http_post_rpc := http_post_rpc e;
     read_file := read_file e;
     getenv := getenv e;
     launch_token_with_buy := launch_token_with_buy e;
     create_buy_tx := create_buy_tx e |}.

Definition with_metadata_answer (r : result (Z * string)) (e : Env W) : Env W :=
  {| send_transaction := send_transaction e;
     confirm_transaction := confirm_transaction e;
     get_account_info := get_account_info e;
     get_minimum_balance_for_rent_exemption := get_minimum_balance_for_rent_exemption e;
     new_keypair := new_keypair e;
     http_get := http_get e;
     http_post_data := http_post_data e;
     http_post_json := fun _ _ _ => r;
     http_post_rpc := http_post_rpc e;
     read_file := read_file e;
     getenv := getenv e;
     launch_token_with_buy := launch_token_with_buy e;
     create_buy_tx := create_buy_tx e |}.

Definition with_rpc_answer (r : result pyval) (e : Env W) : Env W :=
  {| send_transaction := send_transaction e;
     confirm_transaction := confirm_transaction e;
     get_account_info := get_account_info e;
     get_minimum_balance_for_rent_exemption := get_minimum_balance_for_rent_exemption e;
     new_keypair := new_keypair e;
     http_get := http_get e;
     http_post_data := http_post_data e;
     http_post_json := http_post_json e;
     http_post_rpc := fun _ _ => r;
     read_file := read_file e;
     getenv := getenv e;
     launch_token_with_buy := launch_token_with_buy e;
     create_buy_tx := create_buy_tx e |}.

Definition with_read_file (f : string -> result bytes) (e : Env W) : Env W :=
  {| send_transaction := send_transaction e;
     confirm_transaction := confirm_transaction e;
     get_account_info := get_account_info e;
     get_minimum_balance_for_rent_exemption := get_minimum_balance_for_rent_exemption e;
     new_keypair := new_keypair e;
     http_get := http_get e;
     http_post_data := http_post_data e;
     http_post_json := http_post_json e;
     http_post_rpc := http_post_rpc e;
     read_file := f;
     getenv := getenv e;
     launch_token_with_buy := launch_token_with_buy e;
     create_buy_tx := create_buy_tx e |}.

Definition with_getenv (f : string -> option string) (e : Env W) : Env W :=
  {| send_transaction := send_transaction e;
     confirm_transaction := confirm_transaction e;
     get_account_info := get_account_info e;
     get_minimum_balance_for_rent_exemption := get_minimum_balance_for_rent_exemption e;
     new_keypair := new_keypair e;
     http_get := http_get e;
     http_post_data := http_post_data e;
     http_post_json := http_post_json e;
     http_post_rpc := http_post_rpc e;
     read_file := read_file e;
     getenv := f;
     launch_token_with_buy := launch_token_with_buy e;
     create_buy_tx := create_buy_tx e |}.

Definition with_launch (r : result pyval) (e : Env W) : Env W :=
  {| send_transaction := send_transaction e;
     confirm_transaction := confirm_transaction e;
     get_account_info := get_account_info e;
     get_minimum_balance_for_rent_exemption := get_minimum_balance_for_rent_exemption e;
     new_keypair := new_keypair e;
     http_get := http_get e;
     http_post_data := http_post_data e;
     http_post_json := http_post_json e;
     http_post_rpc := http_post_rpc e;
     read_file := read_file e;
     getenv := getenv e;
     launch_token_with_buy := fun _ _ _ _ _ _ _ _ _ => r;
     create_buy_tx := create_buy_tx e |}.

Definition with_buy_tx (r : result (Transaction * list Keypair)) (e : Env W) : Env W :=
  {| send_transaction := send_transaction e;
     confirm_transaction := confirm_transaction e;
     get_account_info := get_account_info e;
     get_minimum_balance_for_rent_exemption := get_minimum_balance_for_rent_exemption e;
     new_keypair := new_keypair e;
     http_get := http_get e;
     http_post_data := http_post_data e;
     http_post_json := http_post_json e;
     http_post_rpc := http_post_rpc e;
     read_file := read_file e;
     getenv := getenv e;
     launch_token_with_buy := launch_token_with_buy e;
     create_buy_tx := fun _ _ _ _ => r |}.

End Replace.

(** A node that accepts every submission, with a funded wallet. *)
Definition base : Env nat := Bench.env "" 200000000 200 [] Bench.quiet.

Definition signature : Signature := repeat xff 64.

Definition accepting (w : nat) : result Signature * nat := (Ok signature, S w).

Definition failing (e : exn) (w : nat) : result Signature * nat := (Raise e, S w).


(** The libraries with another [base58.b58decode]. *)
Definition with_b58decode (f : string -> result bytes) (l : Libraries) : Libraries :=
  {| find_program_address := @find_program_address l;
     create_account := @create_account l;
     pubkey_str := @pubkey_str l;
     b58decode := f;
     keypair_from_bytes := @keypair_from_bytes l;
     json_loads := @json_loads l |}.

End Rig.

(* ================================================================= *)
(** ** The vocabulary of the statements *)

Section Vocabulary.
Import Py Eff Solders Collab Utils RunLaunch Rpc.
Context `{Settings} {W : Type} (env : Env W).

(** An account reference with its two flags. *)
Definition meta (address : Pubkey) (signer writable : bool) : AccountMeta :=
  {| pubkey := address; is_signer := signer; is_writable := writable |}.

(** The state after the calls [calls] were recorded, the world being [w]. *)
Definition after (s : state W) (w : W) (calls : list event) : state W :=
  {| world := w; trace := trace s ++ calls |}.


(** [grows m]: running [m] only appends to the trace. *)
Definition grows {A} (m : M W A) : Prop :=
  forall s, exists calls, trace (snd (m s)) = trace s ++ calls.

(** [starts ev m]: the first thing [m] does is [ev]. *)
Definition starts {A} (ev : event) (m : M W A) : Prop :=
  forall s, exists calls, trace (snd (m s)) = trace s ++ ev :: calls.

(** The error text the pipeline treats as rate limiting. *)
Definition rate_limited (err_str : string) : bool :=
  contains "429" err_str || contains "Too Many Requests" err_str.

(** The submission as the pipeline issues it. *)
Definition submit (txn : Transaction) (signers : list Keypair) (skip : bool) (w : W)
  : result Signature * W :=
  send_transaction env txn signers {| skip_preflight := skip; max_retries := 1 |} w.

(** The image-upload request for [content]. *)
Definition image_upload (content : bytes) : result (Z * string) :=
  http_post_data env IMAGE_UPLOAD_URL (multipart_body content) image_headers.

(** The metadata-upload request for [metadata]. *)
Definition metadata_upload (metadata : pyval) : result (Z * string) :=
  http_post_json env METADATA_UPLOAD_URL metadata metadata_headers.

(** The InitializeAccount instruction for [account], owned by [payer]. *)
Definition initialize_wsol_instruction (account payer : Pubkey) : Instruction :=
  {| program_id := TOKEN_PROGRAM;
     data := SPL_TOKEN_INITIALIZE_ACCOUNT;
     accounts :=
       [ meta account false true;
         meta WSOL_TOKEN false false;
         meta payer false false;
         meta RENT false false ] |}.

(** The parameters handed to the system program's account creation. *)
Definition wsol_account_params (payer account : Pubkey) (amount : Z)
  : CreateAccountParams :=
  {| from_pubkey := payer;
     to_pubkey := account;
     lamports := amount;
     space := 165;
     owner := TOKEN_PROGRAM |}.

(** The rent-exempt minimum the function works with: the RPC's answer, or
    2039280 when the query raised an exception. *)
Definition rent_exempt_minimum (min_rent : Z) : Prop :=
  get_minimum_balance_for_rent_exemption env 165 = Ok min_rent
  \/ (min_rent = 2039280
      /\ exists cls msg,
           get_minimum_balance_for_rent_exemption env 165 = Raise (Exception cls msg)).

(** The answer of the node to [getTokenAccountsByOwner] for owner and mint. *)
Definition token_accounts_query (owner_pubkey mint_address : string) : result pyval :=
  http_post_rpc env (RPC_URL env)
    (rpc_payload "getTokenAccountsByOwner"
       [ VStr owner_pubkey;
         VDict [("mint", VStr mint_address)];
         VDict [("encoding", VStr "jsonParsed")] ]).



End Vocabulary.

(* ================================================================= *)
(** ** More vocabulary, for the statements beyond the claims *)

Section MoreVocabulary.
Import Py Eff Solders Collab Utils RunLaunch.
Context `{Libraries} {W : Type} (env : Env W).

(** [metadata_step metadata calls s]: the rest of a run of [prepare_ipfs]
    from [s] whose image phase is over after the calls [calls]: the upload of
    [metadata] (lines 232-277), inside the function's [except Exception]
    clause. *)
Definition metadata_step (metadata : pyval) (calls : list event) (s : state W)
  : result pyval * state W :=
  try_except (upload_metadata env metadata) (fun _ _ => ret VNone)
    (after s (world s) calls).

(** [published metadata calls s outcome]: the run that ended in [outcome]
    made the calls [calls] and then posted [metadata]: it is the metadata
    step for exactly that metadata; whatever the endpoint answers, the post
    is its one further call; and when the answer has status 200 and is the
    bare URI [uri], [outcome] is that URI, stripped. *)
Definition published (metadata : pyval) (calls : list event) (s : state W)
  (outcome : result pyval * state W) : Prop :=
  outcome = metadata_step metadata calls s
  /\ snd outcome = after s (world s) (calls ++ [Post METADATA_UPLOAD_URL])
  /\ forall uri,
       metadata_upload env metadata = Ok (200, uri) ->
       startswith uri "https://" = true ->
       outcome
       = (Ok (VStr (strip uri)),
          after s (world s) (calls ++ [Post METADATA_UPLOAD_URL])).

(** A pure step that raises nothing but [Exception]s. *)
Definition raises_only_Exception {A} (r : result A) : Prop :=
  match r with
  | Ok _ | Raise (Exception _ _) => True
  | Raise _ => False
  end.

(** The value of four bytes read as an unsigned integer, least significant
    byte first. *)
Definition u32_le (prefix : bytes) : Z :=
  fold_right (fun b rest => Z.of_N (Byte.to_N b) + 256 * rest) 0 prefix.

End MoreVocabulary.

(* ================================================================= *)
(** ** Running a computation step by step *)

Section MonadFacts.
Import Py Eff.
Context {W : Type}.

Lemma mbind_Ok {A B} (m : M W A) (k : A -> M W B) s a s' :
  m s = (Ok a, s') -> mbind m k s = k a s'.
Proof. unfold mbind; now intros ->. Qed.

Lemma try_except_Ok {A} (body : M W A) handler s a s' :
  body s = (Ok a, s') -> try_except body handler s = (Ok a, s').
Proof. unfold try_except; now intros ->. Qed.

Lemma grows_ret {A} (a : A) : grows (ret a : M W A).
Proof. intros s; exists []; cbn. now rewrite app_nil_r. Qed.

Lemma grows_raise {A} e : grows (@raise W A e).
Proof. intros s; exists []; cbn. now rewrite app_nil_r. Qed.

Lemma grows_lift {A} (r : result A) : grows (lift r : M W A).
Proof. intros s; exists []; cbn. now rewrite app_nil_r. Qed.

Lemma grows_emit ev : grows (emit ev : M W unit).
Proof. intros s; now exists [ev]. Qed.

Lemma grows_ask {A} ev (op : W -> result A * W) : grows (ask ev op).
Proof. intros s; exists [ev]; unfold ask. now destruct (op (world s)). Qed.

Lemma grows_mbind {A B} (m : M W A) (k : A -> M W B) :
  grows m -> (forall a, grows (k a)) -> grows (mbind m k).
Proof.
  intros Hm Hk s. unfold mbind.
  destruct (Hm s) as [calls Hcalls].
  destruct (m s) as [[a|e] s1]; cbn [snd] in *.
  - destruct (Hk a s1) as [more Hmore].
    exists (calls ++ more). now rewrite Hmore, Hcalls, app_assoc.
  - now exists calls.
Qed.

Lemma grows_try_except {A} (body : M W A) handler :
  grows body -> (forall cls msg, grows (handler cls msg)) ->
  grows (try_except body handler).
Proof.
  intros Hbody Hhandler s. unfold try_except.
  destruct (Hbody s) as [calls Hcalls].
  destruct (body s) as [[a|[cls msg| | |]] s1]; cbn [snd] in *;
    try (now exists calls).
  destruct (Hhandler cls msg s1) as [more Hmore].
  exists (calls ++ more). now rewrite Hmore, Hcalls, app_assoc.
Qed.

Lemma grows_try_except_class {A} cls (body handler : M W A) :
  grows body -> grows handler -> grows (try_except_class cls body handler).
Proof.
  intros Hbody Hhandler s. unfold try_except_class.
  destruct (Hbody s) as [calls Hcalls].
  destruct (body s) as [[a|[c msg| | |]] s1]; cbn [snd] in *;
    try (now exists calls).
  destruct (String.eqb c cls); [|now exists calls].
  destruct (Hhandler s1) as [more Hmore].
  exists (calls ++ more). now rewrite Hmore, Hcalls, app_assoc.
Qed.

Lemma starts_emit ev {B} (k : unit -> M W B) :
  (forall u, grows (k u)) -> starts ev (mbind (emit ev) k).
Proof.
  intros Hk s. unfold mbind, emit.
  destruct (Hk tt {| world := world s; trace := trace s ++ [ev] |}) as [calls Hcalls].
  exists calls. rewrite Hcalls; cbn [trace]. now rewrite <- app_assoc.
Qed.

Lemma starts_mbind ev {A B} (m : M W A) (k : A -> M W B) :
  starts ev m -> (forall a, grows (k a)) -> starts ev (mbind m k).
Proof.
  intros Hm Hk s. unfold mbind.
  destruct (Hm s) as [calls Hcalls].
  destruct (m s) as [[a|e] s1]; cbn [snd] in *.
  - destruct (Hk a s1) as [more Hmore].
    exists (calls ++ more). rewrite Hmore, Hcalls, <- app_assoc. reflexivity.
  - now exists calls.
Qed.

Lemma starts_try_except ev {A} (body : M W A) handler :
  starts ev body -> (forall cls msg, grows (handler cls msg)) ->
  starts ev (try_except body handler).
Proof.
  intros Hbody Hhandler s. unfold try_except.
  destruct (Hbody s) as [calls Hcalls].
  destruct (body s) as [[a|[cls msg| | |]] s1]; cbn [snd] in *;
    try (now exists calls).
  destruct (Hhandler cls msg s1) as [more Hmore].
  exists (calls ++ more). rewrite Hmore, Hcalls, <- app_assoc. reflexivity.
Qed.

End MonadFacts.

Create HintDb grows.
#[export] Hint Resolve grows_ret grows_raise grows_lift grows_emit grows_ask : grows.

(** Decompose a goal [grows m] along the shape of [m]. *)
Ltac grows :=
  repeat first
    [ progress intros
    | match goal with
      | |- grows (Eff.mbind _ _) => apply grows_mbind
      | |- grows (Eff.try_except _ _) => apply grows_try_except
      | |- grows (Eff.try_except_class _ _ _) => apply grows_try_except_class
      | |- grows (Eff.ret _) => apply grows_ret
      | |- grows (Eff.raise _) => apply grows_raise
      | |- grows (Eff.lift _) => apply grows_lift
      | |- grows (Eff.emit _) => apply grows_emit
      | |- grows (Eff.ask _ _) => apply grows_ask
      | |- grows (if ?b then _ else _) => destruct b
      | |- grows (match ?x with _ => _ end) => destruct x
      end
    | solve [auto with grows] ].

(* ================================================================= *)
(** ** The runtime fragment on a few values *)

Section RuntimeExamples.
Import Py.

Example contains_finds_the_status_code :
  contains "429" "HTTP 429 Too Many Requests" = true
  /\ contains "429" "Blockhash not found" = false.
Proof. split; reflexivity. Qed.

Example strip_removes_the_line_end :
  strip ("https://example/foo" ++ Utils.CRLF) = "https://example/foo".
Proof. reflexivity. Qed.

(** [strip] removes the white space of Unicode as well: a no-break space
    (U+00A0) and a line separator (U+2028) go, on both sides; a zero-width
    space (U+200B), which [str.isspace] does not accept, stays. *)
Example strip_removes_unicode_white_space :
  let nbsp := String (ascii_of_nat 194) (String (ascii_of_nat 160) "") in
  let line_separator :=
    String (ascii_of_nat 226) (String (ascii_of_nat 128) (String (ascii_of_nat 168) "")) in
  let zero_width :=
    String (ascii_of_nat 226) (String (ascii_of_nat 128) (String (ascii_of_nat 139) "")) in
  strip (nbsp ++ "https://example/foo" ++ line_separator ++ " " ++ nbsp)%string
  = "https://example/foo"
  /\ strip ("https://example/foo" ++ zero_width)%string
     = ("https://example/foo" ++ zero_width)%string.
Proof. split; reflexivity. Qed.

Example int_of_float_truncates :
  int_of_float (0.05 * 1000000000)%float = Ok 50000000
  /\ int_of_float (-2.7)%float = Ok (-2)
  /\ int_of_float infinity
     = Raise (Exception "OverflowError" "cannot convert float infinity to integer").
Proof. repeat split. Qed.

Example float_of_int_rounds_to_nearest_even :
  float_of_int (2 ^ 53 + 1) = Ok 9007199254740992%float
  /\ float_of_int (2 ^ 53 + 3) = Ok 9007199254740996%float
  /\ float_of_int (2 ^ 1024)
     = Raise (Exception "OverflowError" "int too large to convert to float").
Proof. repeat split. Qed.

Example lamports_to_sol :
  truediv_float (VInt 100000000) 1e9%float = Ok 0.1%float
  /\ truediv_float (VInt 200000000) 1e9%float = Ok 0.2%float
  /\ truediv_float VNone 1e9%float
     = TypeError "unsupported operand type(s) for /: 'NoneType' and 'float'".
Proof. repeat split. Qed.

(** The threshold of the balance gate is not 0.15: a wallet holding exactly
    0.15 is below it. *)
Example balance_threshold :
  (RunLaunch.INITIAL_BUY_SOL + 0.1)%float = 0.15000000000000002%float
  /\ (0.15 <? RunLaunch.INITIAL_BUY_SOL + 0.1)%float = true.
Proof. split; reflexivity. Qed.

End RuntimeExamples.

(* ================================================================= *)
(** ** Instruction builder *)

Section InstructionBuilder.
Import Py Eff Solders Collab Utils.
Context `{Settings} `{Libraries} {W : Type} (env : Env W).

(** C4: the instruction built by [create_associated_token_account_instruction]
    is addressed to the associated-token program, has an empty payload and
    exactly seven account references, in the order payer (signer, writable),
    derived account (writable), owner, mint, system program, token program,
    rent sysvar (the last five read-only and not signers); the address
    returned with it is the derived one. *)
Theorem create_associated_token_account_instruction_layout
  (payer owner mint : Pubkey) :
  let ata := get_associated_token_address owner mint in
  let ix := snd (create_associated_token_account_instruction payer owner mint) in
  fst (create_associated_token_account_instruction payer owner mint) = ata
  /\ program_id ix = ASSOC_TOKEN_ACC_PROG
  /\ data ix = []
  /\ List.length (accounts ix) = 7%nat
  /\ accounts ix =
       [ meta payer true true;
         meta ata false true;
         meta owner false false;
         meta mint false false;
         meta SYSTEM_PROGRAM false false;
         meta TOKEN_PROGRAM false false;
         meta RENT false false ].
Proof.
  cbv zeta.
  unfold create_associated_token_account_instruction, meta; simpl.
  repeat split.
Qed.

(** C5: the InitializeAccount payload is the single byte 1 and the
    CloseAccount payload is the single byte 9; [get_close_wsol_instruction]
    builds a token-program instruction with the CloseAccount payload whose
    accounts are, in order, the account to close (writable, not a signer),
    the owner as destination (writable, not a signer) and the owner as
    authority (signer, not writable). *)
Theorem token_program_wire_format (account owner : Pubkey) :
  map Byte.to_N SPL_TOKEN_INITIALIZE_ACCOUNT = [1%N]
  /\ map Byte.to_N SPL_TOKEN_CLOSE_ACCOUNT = [9%N]
  /\ program_id (get_close_wsol_instruction account owner) = TOKEN_PROGRAM
  /\ data (get_close_wsol_instruction account owner) = SPL_TOKEN_CLOSE_ACCOUNT
  /\ accounts (get_close_wsol_instruction account owner) =
       [ meta account false true;
         meta owner false true;
         meta owner true false ].
Proof.
  repeat split.
Qed.

(** C10: [create_or_get_token_account] always answers with the address
    [get_associated_token_address owner mint]; with no instruction when the
    account-info query finds an account, and with the creation instruction
    when it finds none or raises an exception, which is swallowed. *)
Theorem create_or_get_token_account_cases (payer owner mint : Pubkey) (s : state W) :
  let ata := get_associated_token_address owner mint in
  let create := snd (create_associated_token_account_instruction payer owner mint) in
  let s' := after s (world s) [Rpc "getAccountInfo"] in
  (forall info, get_account_info env ata = Ok (Some info) ->
     create_or_get_token_account env payer owner mint s = (Ok (ata, None), s'))
  /\ (get_account_info env ata = Ok None ->
        create_or_get_token_account env payer owner mint s = (Ok (ata, Some create), s'))
  /\ (forall cls msg, get_account_info env ata = Raise (Exception cls msg) ->
        create_or_get_token_account env payer owner mint s = (Ok (ata, Some create), s')).
Proof.
  cbv zeta.
  unfold create_or_get_token_account, try_except, mbind, emit, lift, ret, after.
  cbn [world trace].
  split; [intros info Hfound | split; [intros Hfound | intros cls msg Hfound]];
    rewrite Hfound; reflexivity.
Qed.

End InstructionBuilder.

(* ================================================================= *)
(** ** Submission pipeline *)

Section SubmissionPipeline.
Import Py Eff Solders Collab Utils.
Context {W : Type} (env : Env W).
Variables (txn : Transaction) (signers : list Keypair) (skip confirm : bool).

(** One failed attempt inside the loop: what the handler does next. *)
Lemma submit_loop_failed_attempt globals attempt rest backoff (s : state W) cls msg w :
  submit env txn signers skip (world s) = (Raise (Exception cls msg), w) ->
  submit_loop env globals txn signers skip confirm (attempt :: rest) backoff s =
  (if rate_limited msg
   then if attempt =? 3 then ret SentFalse
        else mbind (asyncio_sleep globals backoff)
               (fun _ => submit_loop env globals txn signers skip confirm
                           rest (backoff * 2))
   else ret SentFalse) (after s w [Submit]).
Proof.
  unfold submit; intros Hfail.
  simpl. unfold try_except, mbind, ask at 1. rewrite Hfail. reflexivity.
Qed.

(** C9: when the first submission fails with an error whose text holds
    neither "429" nor "Too Many Requests", [send_and_confirm_transaction]
    returns [False] after that one submission: the trace grows by one
    [Submit] and by no [Sleep]. *)
Theorem non_rate_limit_error_stops_after_one_attempt (s : state W) cls msg w :
  submit env txn signers skip (world s) = (Raise (Exception cls msg), w) ->
  contains "429" msg = false ->
  contains "Too Many Requests" msg = false ->
  send_and_confirm_transaction env txn signers skip confirm s
  = (Ok SentFalse, after s w [Submit]).
Proof.
  intros Hfail H429 Htoo.
  unfold send_and_confirm_transaction.
  rewrite (submit_loop_failed_attempt _ _ _ _ _ _ _ _ Hfail).
  unfold rate_limited. rewrite H429, Htoo. reflexivity.
Qed.

(** [asyncio] is not among the names [utils.py] binds. *)
Lemma utils_does_not_bind_asyncio :
  load_name utils_globals "asyncio"
  = Raise (Exception "NameError" "name 'asyncio' is not defined").
Proof. reflexivity. Qed.

(** C1, as the code runs: when the first submission fails with a rate-limit
    error, the handler reaches [asyncio.sleep] in a module that never imports
    [asyncio]; the call ends with [NameError] after one submission and no
    sleep, instead of three submissions and [False]. *)
Theorem rate_limit_error_raises_name_error (s : state W) cls msg w :
  submit env txn signers skip (world s) = (Raise (Exception cls msg), w) ->
  rate_limited msg = true ->
  send_and_confirm_transaction env txn signers skip confirm s
  = (Raise (Exception "NameError" "name 'asyncio' is not defined"),
     after s w [Submit]).
Proof.
  intros Hfail Hrate.
  unfold send_and_confirm_transaction.
  rewrite (submit_loop_failed_attempt _ _ _ _ _ _ _ _ Hfail), Hrate.
  reflexivity.
Qed.

Lemma after_after (s : state W) w w' calls calls' :
  after (after s w calls) w' calls' = after s w' (calls ++ calls').
Proof. unfold after; simpl. now rewrite app_assoc. Qed.

(** A rate-limited attempt before the last one, in a module that binds
    [asyncio]: sleep for [backoff], double it, go on with the next attempt. *)
Lemma submit_loop_retries globals attempt rest backoff (s : state W) cls msg w :
  load_name globals "asyncio" = Ok tt ->
  submit env txn signers skip (world s) = (Raise (Exception cls msg), w) ->
  rate_limited msg = true ->
  attempt <> 3 ->
  submit_loop env globals txn signers skip confirm (attempt :: rest) backoff s
  = submit_loop env globals txn signers skip confirm rest (backoff * 2)
      (after s w [Submit; Sleep backoff]).
Proof.
  intros Hbound Hfail Hrate Hnot_last.
  rewrite (submit_loop_failed_attempt _ _ _ _ _ _ _ _ Hfail), Hrate.
  apply Z.eqb_neq in Hnot_last; rewrite Hnot_last.
  unfold asyncio_sleep, mbind, lift, emit; rewrite Hbound.
  unfold after; simpl. now rewrite <- app_assoc.
Qed.

(** With [asyncio] bound, the same loop is the backoff the docstring
    announces: a transport that answers every submission with a rate-limit
    error is tried three times, with sleeps of 1 and 2 in between, and the
    result is [False]. *)
Lemma submit_loop_backs_off_when_asyncio_is_bound globals (s : state W) :
  load_name globals "asyncio" = Ok tt ->
  (forall w, exists cls msg w',
      submit env txn signers skip w = (Raise (Exception cls msg), w') /\ rate_limited msg = true) ->
  exists w',
    submit_loop env globals txn signers skip confirm [1; 2; 3] 1 s
    = (Ok SentFalse, after s w' [Submit; Sleep 1; Submit; Sleep 2; Submit]).
Proof.
  intros Hbound Halways.
  destruct (Halways (world s)) as (c1 & m1 & w1 & F1 & R1).
  destruct (Halways w1) as (c2 & m2 & w2 & F2 & R2).
  destruct (Halways w2) as (c3 & m3 & w3 & F3 & R3).
  exists w3.
  rewrite (submit_loop_retries globals 1 _ _ s c1 m1 w1) by (assumption || lia).
  rewrite (submit_loop_retries globals 2 _ _ (after s w1 _) c2 m2 w2)
    by (assumption || lia).
  rewrite (submit_loop_failed_attempt globals 3 _ _ (after (after s w1 _) w2 _) c3 m3 w3)
    by assumption.
  rewrite R3. unfold ret. now rewrite !after_after.
Qed.

End SubmissionPipeline.

(* ================================================================= *)
(** ** Metadata uploader *)

Section MetadataUploader.
Import Py Eff Solders Collab Utils.
Context `{Libraries} {W : Type} (env : Env W).

(** A rejected image upload ends the function with [None] when the caller
    gave no [image_url]... *)
Lemma upload_image_rejected_without_url content status text (s : state W) :
  image_upload env content = Ok (status, text) ->
  status <> 200 ->
  upload_image env content VNone s
  = (Ok (Return VNone), after s (world s) [Post IMAGE_UPLOAD_URL]).
Proof.
  unfold image_upload, upload_image, mbind, emit, lift, ret, after.
  intros Hpost Hstatus; simpl; rewrite Hpost.
  apply Z.eqb_neq in Hstatus; rewrite Hstatus. reflexivity.
Qed.

(** ... but not when [image_url] still holds the caller's URL: line 226
    tests the variable the upload was meant to overwrite. *)
Lemma upload_image_rejected_with_url content url status text (s : state W) :
  image_upload env content = Ok (status, text) ->
  status <> 200 ->
  url <> "" ->
  upload_image env content (VStr url) s
  = (Ok (Next (VStr url)), after s (world s) [Post IMAGE_UPLOAD_URL]).
Proof.
  unfold image_upload, upload_image, mbind, emit, lift, ret, after.
  intros Hpost Hstatus Hurl; simpl; rewrite Hpost.
  apply Z.eqb_neq in Hstatus; rewrite Hstatus.
  apply String.eqb_neq in Hurl. simpl. rewrite Hurl. reflexivity.
Qed.

(** A metadata upload that is answered with another status than 200 gives
    [None]. *)
Lemma upload_metadata_rejected metadata status text (s : state W) :
  metadata_upload env metadata = Ok (status, text) ->
  status <> 200 ->
  upload_metadata env metadata s
  = (Ok VNone, after s (world s) [Post METADATA_UPLOAD_URL]).
Proof.
  unfold metadata_upload, upload_metadata, mbind, emit, lift, ret, after.
  intros Hpost Hstatus; simpl; rewrite Hpost.
  apply Z.eqb_neq in Hstatus; rewrite Hstatus. reflexivity.
Qed.

(** A metadata upload answered with a bare [https://] URI gives that URI. *)
Lemma upload_metadata_bare_uri metadata uri (s : state W) :
  metadata_upload env metadata = Ok (200, uri) ->
  startswith uri "https://" = true ->
  upload_metadata env metadata s
  = (Ok (VStr (strip uri)), after s (world s) [Post METADATA_UPLOAD_URL]).
Proof.
  unfold metadata_upload, upload_metadata, mbind, emit, lift, ret, after.
  intros Hpost Hbare; simpl; rewrite Hpost; simpl. rewrite Hbare. reflexivity.
Qed.

(** With only a remote [url] given, the bytes to upload are the download. *)
Lemma resolve_image_bytes_downloads url content (s : state W) :
  url <> "" ->
  http_get env url = Ok (200, content) ->
  resolve_image_bytes env (Some url) None None s
  = (Ok (Some content), after s (world s) [Get url]).
Proof.
  intros Hurl Hget.
  unfold resolve_image_bytes, download_image.
  destruct url as [|c url]; [contradiction|].
  cbn [bytes_truthy str_truthy].
  apply try_except_Ok.
  erewrite mbind_Ok
    by (unfold mbind, emit, lift; cbn [fst snd world trace]; rewrite Hget; reflexivity).
  reflexivity.
Qed.

(** C2, as the code runs: the image is downloaded from a remote [url], its
    upload is rejected, and [prepare_ipfs] goes on to upload metadata that
    points at [url] and returns the metadata URI instead of [None]. *)
Theorem prepare_ipfs_returns_uri_after_rejected_image_upload
  (name symbol description twitter telegram website url : string)
  (content : bytes) (status : Z) (text uri : string) (s : state W) :
  url <> "" ->
  startswith url PINATA_GATEWAY = false ->
  http_get env url = Ok (200, content) ->
  content <> [] ->
  image_upload env content = Ok (status, text) ->
  status <> 200 ->
  metadata_upload env
    (build_metadata name symbol description twitter telegram website (VStr url))
  = Ok (200, uri) ->
  startswith uri "https://" = true ->
  prepare_ipfs env name symbol description twitter telegram website
    (Some url) None None s
  = (Ok (VStr (strip uri)),
     after s (world s) [Get url; Post IMAGE_UPLOAD_URL; Post METADATA_UPLOAD_URL]).
Proof.
  intros Hurl Hremote Hget Hcontent Himage Hstatus Hmeta Hbare.
  assert (Htruthy : str_truthy (Some url) = true)
    by (destruct url; [contradiction | reflexivity]).
  assert (Hbytes : bytes_truthy (Some content) = true)
    by (destruct content; [contradiction | reflexivity]).
  assert (Hkept : negb (truthy (VStr url)) = false)
    by (cbn [truthy]; apply String.eqb_neq in Hurl; now rewrite Hurl).
  unfold prepare_ipfs. apply try_except_Ok.
  rewrite Htruthy, Hremote. cbn [andb].
  erewrite mbind_Ok; cycle 1.
  { erewrite mbind_Ok by (apply resolve_image_bytes_downloads; eassumption).
    rewrite Hbytes.
    erewrite mbind_Ok
      by (apply upload_image_rejected_with_url with (status := status) (text := text);
          assumption).
    cbv beta iota. unfold optional_str. rewrite Hkept. reflexivity. }
  cbn beta iota.
  rewrite (upload_metadata_bare_uri _ _ _ Hmeta Hbare).
  now rewrite !after_after.
Qed.

End MetadataUploader.

(* ================================================================= *)
(** ** Temporary wrapped-native account *)

Section TemporaryAccount.
Import Py Eff Solders Collab Utils.
Context `{Settings} `{Libraries} {W : Type} (env : Env W).

Lemma float_of_int_1e9 : float_of_int (10 ^ 9) = Ok 1000000000%float.
Proof. reflexivity. Qed.

(** C8, amended: with [SOL_DECIMAL = 9], for every payer and every amount
    whose product with 10^9 converts to an integer (it is neither NaN nor
    infinite) and whose lamports the system program's encoder accepts,
    [create_temporary_wsol_account] takes a new keypair from the generator,
    computes the lamports as the rent-exempt minimum for 165 bytes (the RPC's
    answer, or 2039280 when that query fails) plus [int(amount * 10^9)], and
    returns the new account's address, exactly two instructions (the system
    account creation with space 165 and the token program as owner, then
    InitializeAccount on the new account, the wrapped-native mint and the
    payer as owner) and the keypair. *)
Theorem create_temporary_wsol_account_returns
  (payer : Pubkey) (amount : float) (s : state W)
  (wsol_keypair : Keypair) (w : W) (min_rent base_units : Z) (create_ix : Instruction) :
  SOL_DECIMAL = 9 ->
  new_keypair env (world s) = (wsol_keypair, w) ->
  rent_exempt_minimum env min_rent ->
  int_of_float (amount * 1000000000)%float = Ok base_units ->
  create_account
    (wsol_account_params payer (keypair_pubkey wsol_keypair) (min_rent + base_units))
  = Ok create_ix ->
  create_temporary_wsol_account env payer amount s
  = (Ok (keypair_pubkey wsol_keypair,
         [create_ix; initialize_wsol_instruction (keypair_pubkey wsol_keypair) payer],
         wsol_keypair),
     after s w [NewKeypair; Rpc "getMinimumBalanceForRentExemption"]).
Proof.
  intros Hdecimal Hkeypair Hrent Hunits Hcreate.
  unfold create_temporary_wsol_account.
  erewrite mbind_Ok by (unfold ask; rewrite Hkeypair; reflexivity).
  assert (Hmin :
    try_except
      (mbind (emit (Rpc "getMinimumBalanceForRentExemption"))
         (fun _ => lift (get_minimum_balance_for_rent_exemption env 165)))
      (fun _ _ => ret 2039280)
      {| world := w; trace := trace s ++ [NewKeypair] |}
    = (Ok min_rent, after s w [NewKeypair; Rpc "getMinimumBalanceForRentExemption"])).
  { unfold try_except, mbind, emit, lift, ret, after; cbn [world trace].
    destruct Hrent as [-> | (-> & cls & msg & ->)];
      now rewrite <- app_assoc. }
  erewrite mbind_Ok by exact Hmin.
  rewrite Hdecimal, float_of_int_1e9.
  erewrite mbind_Ok by reflexivity.
  erewrite mbind_Ok by (unfold lift; rewrite Hunits; reflexivity).
  erewrite mbind_Ok by (unfold lift; fold (wsol_account_params payer
    (keypair_pubkey wsol_keypair) (min_rent + base_units)); rewrite Hcreate; reflexivity).
  reflexivity.
Qed.

End TemporaryAccount.

(* ================================================================= *)
(** ** Balance oracle *)

Section BalanceOracle.
Import Py Eff Solders Collab RunLaunch Rpc.
Context {W : Type} (env : Env W).


Lemma ui_amount_token_account amount :
  ui_amount (token_account amount)
  = Ok (match amount with Some f => VFloat f | None => VNone end).
Proof. reflexivity. Qed.



End BalanceOracle.

(* ================================================================= *)
(** ** Orchestrator *)

Section FloatOrder.

Lemma SFcompare_antisym x y c :
  SFcompare x y = Some c -> SFcompare y x = Some (CompOpp c).
Proof.
  destruct x as [sx|sx| |sx mx ex], y as [sy|sy| |sy my ey]; cbn;
    try discriminate; intros [= <-];
    try (destruct sx; reflexivity); try (destruct sy; reflexivity);
    try (destruct sx, sy; reflexivity).
  destruct sx, sy; try reflexivity;
    rewrite (Z.compare_antisym ex ey);
    destruct (ex ?= ey)%Z; cbn; try reflexivity;
    f_equal; change PosDef.Pos.compare_cont with Pos.compare_cont;
    rewrite (Pos.compare_cont_antisym mx my Eq); reflexivity.
Qed.

(** A float that is at least [t] is not below [t]. *)
Lemma leb_not_ltb (t b : float) :
  (t <=? b)%float = true -> (b <? t)%float = false.
Proof.
  rewrite leb_spec, ltb_spec. unfold SFleb, SFltb.
  destruct (SFcompare (Prim2SF t) (Prim2SF b)) as [c|] eqn:E; [|discriminate].
  rewrite (SFcompare_antisym _ _ _ E). destruct c; (discriminate || reflexivity).
Qed.

End FloatOrder.

Section Orchestrator.
Import Py Eff Solders Collab RunLaunch.
Context `{Libraries} {W : Type} (env : Env W).

Lemma mbind_Ok_inv {A B} (m : M W A) (k : A -> M W B) s b s2 :
  mbind m k s = (Ok b, s2) ->
  exists a s1, m s = (Ok a, s1) /\ k a s1 = (Ok b, s2).
Proof.
  unfold mbind. destruct (m s) as [[a|e] s1]; [eauto | discriminate].
Qed.

(** Case analysis on the innermost value the goal branches on. *)
Ltac innermost x :=
  lazymatch x with
  | context [match ?y with _ => _ end] => innermost y
  | _ => destruct x eqn:?
  end.

Ltac case_split :=
  match goal with
  | |- context [match ?x with _ => _ end] => innermost x; cbv beta iota
  end.

Ltac same_state :=
  first [ discriminate
        | reflexivity
        | intros [= <-]; try reflexivity; now rewrite <- ?app_assoc
        | intros [= <- <-]; try reflexivity; now rewrite <- ?app_assoc ].

(** The calls of the three steps of the setup. *)
Lemma test_ssl_connection_trace s s' :
  test_ssl_connection env s = (Ok tt, s') ->
  s' = after s (world s)
         [Get "https://ipfs.io"; Get "https://api.mainnet-beta.solana.com"].
Proof.
  unfold test_ssl_connection, try_except, mbind, emit, lift, ret, after.
  cbn [world trace].
  repeat case_split; cbn [world trace]; same_state.
Qed.

Lemma make_keypair_from_base58_trace b58 (s : state W) r s' :
  make_keypair_from_base58 b58 s = (r, s') -> s' = s.
Proof.
  unfold make_keypair_from_base58, try_except, mbind, lift, raise.
  repeat case_split; same_state.
Qed.

Lemma get_wallet_balance_trace pubkey s :
  snd (get_wallet_balance env pubkey s) = after s (world s) [Post (RPC_URL env)].
Proof.
  unfold get_wallet_balance, try_except, mbind, emit, lift, ret, after.
  cbn [world trace].
  repeat case_split; reflexivity.
Qed.

Lemma main_setup_trace (s s1 : state W) payer mint balance :
  main_setup env s = (Ok (payer, mint, balance), s1) ->
  trace s1 = trace s ++ [ Get "https://ipfs.io";
                          Get "https://api.mainnet-beta.solana.com";
                          NewKeypair;
                          Post (RPC_URL env) ].
Proof.
  unfold main_setup. intros Hrun.
  apply mbind_Ok_inv in Hrun as ([] & s_a & Hvalid & Hrun).
  apply mbind_Ok_inv in Hrun as ([] & s_b & Hssl & Hrun).
  apply mbind_Ok_inv in Hrun as (payer' & s_c & Hkey & Hrun).
  apply mbind_Ok_inv in Hrun as (mint' & s_d & Hmint & Hrun).
  apply mbind_Ok_inv in Hrun as (balance' & s_e & Hbalance & Hrun).
  unfold ret in Hrun. injection Hrun as _ _ _ <-.
  unfold validate_environment in Hvalid.
  destruct (Utils.str_truthy (KEYPAIR_B58 env)); [|discriminate].
  injection Hvalid as <-.
  apply test_ssl_connection_trace in Hssl.
  apply make_keypair_from_base58_trace in Hkey.
  unfold ask in Hmint. destruct (new_keypair env (world s_c)) as [k w].
  injection Hmint as _ <-.
  pose proof (get_wallet_balance_trace (keypair_pubkey payer')
                {| world := w; trace := trace s_c ++ [NewKeypair] |}) as Htrace.
  rewrite Hbalance in Htrace. cbn [snd] in Htrace.
  subst. unfold after; cbn [trace world]. now rewrite <- !app_assoc.
Qed.

(** Every step of the launch only appends to the trace. *)
Lemma grows_asyncio_sleep globals seconds :
  grows (Utils.asyncio_sleep (W := W) globals seconds).
Proof. unfold Utils.asyncio_sleep. grows. Qed.

Lemma grows_submit_loop globals txn signers skip confirm attempts :
  forall backoff,
    grows (Utils.submit_loop env globals txn signers skip confirm attempts backoff).
Proof.
  induction attempts as [|attempt rest IH]; intros backoff; cbn [Utils.submit_loop].
  - grows.
  - pose proof (grows_asyncio_sleep globals backoff). grows.
Qed.

Lemma grows_buy_loop buy_txn signers attempts :
  grows (buy_loop env buy_txn signers attempts).
Proof.
  induction attempts as [|attempt rest IH]; cbn [buy_loop].
  - grows.
  - pose proof (grows_asyncio_sleep run_launch_globals (1 + attempt)).
    pose proof (grows_submit_loop Utils.utils_globals buy_txn signers true false
                  [1; 2; 3] 1).
    unfold Utils.send_and_confirm_transaction. grows.
Qed.

Lemma grows_do_initial_buy payer mint amount pdas :
  grows (do_initial_buy env payer mint amount pdas).
Proof.
  unfold do_initial_buy.
  apply grows_mbind; [grows|].
  intros [buy_txn extra_signers]. apply grows_buy_loop.
Qed.

Lemma grows_get_token_balance owner_pubkey mint_address :
  grows (get_token_balance env owner_pubkey mint_address).
Proof. unfold get_token_balance. grows. Qed.

Lemma grows_upload_image content image_url :
  grows (Utils.upload_image env content image_url).
Proof.
  unfold Utils.upload_image.
  apply grows_mbind; [grows|]. intros [status text]. grows.
Qed.

Lemma grows_upload_metadata metadata :
  grows (Utils.upload_metadata env metadata).
Proof.
  unfold Utils.upload_metadata.
  apply grows_mbind; [grows|]. intros [status text]. grows.
Qed.

(** The script's call of [prepare_ipfs] starts by downloading [IMAGE_URL]. *)
Lemma prepare_ipfs_with_ssl_fix_starts :
  starts (Get IMAGE_URL)
    (prepare_ipfs_with_ssl_fix env NAME SYMBOL DESCRIPTION IMAGE_URL).
Proof.
  pose proof grows_upload_image. pose proof grows_upload_metadata.
  unfold prepare_ipfs_with_ssl_fix, Utils.prepare_ipfs.
  apply starts_try_except; [|grows].
  apply starts_mbind; [|grows].
  change (Utils.str_truthy (Some IMAGE_URL)
          && startswith IMAGE_URL Utils.PINATA_GATEWAY) with false.
  cbv iota.
  apply starts_mbind; [|grows].
  change (Utils.resolve_image_bytes env (Some IMAGE_URL) None None)
    with (Utils.download_image env IMAGE_URL).
  unfold Utils.download_image.
  apply starts_try_except; [|grows].
  apply starts_mbind; [|intros [status body]; grows].
  apply starts_emit. grows.
Qed.

Lemma main_launch_starts payer mint :
  starts (Get IMAGE_URL) (main_launch env payer mint).
Proof.
  pose proof grows_do_initial_buy. pose proof grows_get_token_balance.
  unfold main_launch.
  apply starts_mbind; [apply prepare_ipfs_with_ssl_fix_starts|].
  grows.
Qed.

(** C6: the buy amount is 0.05.  Once the setup has fetched [balance], a
    balance below [0.05 + 0.1] (as floats) ends [main] at once: nothing is
    called after the balance query, so neither an upload nor the launch; a
    balance of at least [0.05 + 0.1] makes [main] go on with the metadata
    step, whose first call is the download of the image.  A balance of 0.10
    takes the first branch and a balance of 0.20 the second. *)
Theorem balance_gate (s s1 : state W) (payer mint : Keypair) (balance : float) :
  main_setup env s = (Ok (payer, mint, balance), s1) ->
  let setup_calls :=
    [ Get "https://ipfs.io"; Get "https://api.mainnet-beta.solana.com";
      NewKeypair; Post (RPC_URL env) ] in
  let aborts :=
    main env s = (Ok tt, s1) /\ trace (snd (main env s)) = trace s ++ setup_calls in
  let proceeds :=
    main env s = main_launch env payer mint s1
    /\ exists calls,
         trace (snd (main env s)) = trace s ++ setup_calls ++ Get IMAGE_URL :: calls in
  INITIAL_BUY_SOL = 0.05%float
  /\ ((balance <? INITIAL_BUY_SOL + 0.1)%float = true -> aborts)
  /\ ((INITIAL_BUY_SOL + 0.1 <=? balance)%float = true -> proceeds)
  /\ (balance = 0.10%float -> aborts)
  /\ (balance = 0.20%float -> proceeds).
Proof.
  intros Hsetup. cbv zeta.
  pose proof (main_setup_trace _ _ _ _ _ Hsetup) as Htrace.
  assert (Habort : (balance <? INITIAL_BUY_SOL + 0.1)%float = true ->
                   main env s = (Ok tt, s1)
                   /\ trace (snd (main env s)) = trace s ++
                        [ Get "https://ipfs.io";
                          Get "https://api.mainnet-beta.solana.com";
                          NewKeypair; Post (RPC_URL env) ]).
  { intros Hbelow.
    assert (Hmain : main env s = (Ok tt, s1))
      by (unfold main; rewrite (mbind_Ok _ _ _ _ _ Hsetup); cbv beta iota;
          now rewrite Hbelow).
    now rewrite Hmain. }
  assert (Hproceed : (balance <? INITIAL_BUY_SOL + 0.1)%float = false ->
                     main env s = main_launch env payer mint s1
                     /\ exists calls,
                          trace (snd (main env s)) = trace s ++
                            [ Get "https://ipfs.io";
                              Get "https://api.mainnet-beta.solana.com";
                              NewKeypair; Post (RPC_URL env) ]
                            ++ Get IMAGE_URL :: calls).
  { intros Habove.
    assert (Hmain : main env s = main_launch env payer mint s1)
      by (unfold main; rewrite (mbind_Ok _ _ _ _ _ Hsetup); cbv beta iota;
          now rewrite Habove).
    split; [exact Hmain|].
    destruct (main_launch_starts payer mint s1) as [calls Hcalls].
    exists calls. now rewrite Hmain, Hcalls, Htrace, <- app_assoc. }
  split; [reflexivity|].
  split; [exact Habort|].
  split; [intros Hleast; apply Hproceed, leb_not_ltb, Hleast|].
  split; [intros ->; now apply Habort | intros ->; now apply Hproceed].
Qed.

(** C3, amended: when an exception of class [Exception] escapes [main], the
    script prints one "Fatal error" line with its text and one traceback,
    and the process then ends with exit status 0. *)
Theorem script_reports_escaped_exception (s : state W) (cls msg : string) :
  fst (main env s) = Raise (Exception cls msg) ->
  script env s
  = ([Line ("Fatal error: " ++ msg)%string; Traceback (Exception cls msg)], 0).
Proof.
  unfold script. now intros ->.
Qed.

End Orchestrator.

(* ================================================================= *)
(** ** The theorems on the test bench *)

Section OnTheBench.
Import Py Eff Solders Collab Utils RunLaunch.

Lemma create_or_get_token_account_cases_witness :
  let payer := Bench.address x07 in
  let mint := Bench.address x08 in
  let ata := @get_associated_token_address Bench.settings Bench.libraries payer mint in
  let create :=
    snd (@create_associated_token_account_instruction Bench.settings Bench.libraries
           payer payer mint) in
  @create_or_get_token_account Bench.settings Bench.libraries nat
    (Bench.env "" 0 200 [] Bench.quiet) payer payer mint Bench.start
  = (Ok (ata, Some create), {| world := 0%nat; trace := [Rpc "getAccountInfo"] |}).
Proof.
  cbv zeta.
  apply (@create_or_get_token_account_cases Bench.settings Bench.libraries nat
           (Bench.env "" 0 200 [] Bench.quiet) (Bench.address x07) (Bench.address x07)
           (Bench.address x08) Bench.start).
  reflexivity.
Defined.

Lemma non_rate_limit_error_stops_after_one_attempt_witness :
  send_and_confirm_transaction (Bench.env "Blockhash not found" 0 200 [] Bench.quiet)
    Bench.transaction [] true false Bench.start
  = (Ok SentFalse, {| world := 1%nat; trace := [Submit] |}).
Proof.
  apply (non_rate_limit_error_stops_after_one_attempt
           (Bench.env "Blockhash not found" 0 200 [] Bench.quiet) Bench.transaction [] true
           false Bench.start "RPCException" "Blockhash not found" 1%nat);
    reflexivity.
Defined.

Lemma rate_limit_error_raises_name_error_witness :
  send_and_confirm_transaction (Bench.env "HTTP 429 Too Many Requests" 0 200 [] Bench.quiet)
    Bench.transaction [] true false Bench.start
  = (Raise (Exception "NameError" "name 'asyncio' is not defined"),
     {| world := 1%nat; trace := [Submit] |}).
Proof.
  apply (rate_limit_error_raises_name_error
           (Bench.env "HTTP 429 Too Many Requests" 0 200 [] Bench.quiet) Bench.transaction []
           true false Bench.start "RPCException" "HTTP 429 Too Many Requests" 1%nat);
    reflexivity.
Defined.

Lemma prepare_ipfs_returns_uri_after_rejected_image_upload_witness :
  @prepare_ipfs Bench.libraries nat (Bench.env "" 0 500 [] Bench.quiet)
    NAME SYMBOL DESCRIPTION "" "" "" (Some IMAGE_URL) None None Bench.start
  = (Ok (VStr "https://gated.chat/meta/1"),
     {| world := 0%nat;
        trace := [Get IMAGE_URL; Post IMAGE_UPLOAD_URL; Post METADATA_UPLOAD_URL] |}).
Proof.
  apply (@prepare_ipfs_returns_uri_after_rejected_image_upload Bench.libraries nat
           (Bench.env "" 0 500 [] Bench.quiet) NAME SYMBOL DESCRIPTION "" "" "" IMAGE_URL
           [x2a] 500 "upstream error" "https://gated.chat/meta/1" Bench.start);
    first [reflexivity | discriminate].
Defined.

Lemma create_temporary_wsol_account_returns_witness :
  let payer := Bench.address x07 in
  let account := Bench.address x09 in
  @create_temporary_wsol_account Bench.settings Bench.libraries nat
    (Bench.env "" 0 200 [] Bench.quiet) payer 0.05%float Bench.start
  = (Ok (account,
         [ {| program_id := Bench.address x03;
              data := [];
              accounts := [meta payer true true; meta account true true] |};
           @initialize_wsol_instruction Bench.settings account payer ],
         Bench.keypair x09),
     {| world := 0%nat;
        trace := [NewKeypair; Rpc "getMinimumBalanceForRentExemption"] |}).
Proof.
  cbv zeta.
  apply (@create_temporary_wsol_account_returns Bench.settings Bench.libraries nat
           (Bench.env "" 0 200 [] Bench.quiet) (Bench.address x07) 0.05%float Bench.start
           (Bench.keypair x09) 0%nat 2039280 50000000).
  - reflexivity.
  - reflexivity.
  - left; reflexivity.
  - reflexivity.
  - reflexivity.
Defined.

(** C8 as stated fails for an amount that is not a number: the conversion to
    an integer raises and the function returns nothing. *)
Lemma create_temporary_wsol_account_nan_counterexample :
  fst (@create_temporary_wsol_account Bench.settings Bench.libraries nat
         (Bench.env "" 0 200 [] Bench.quiet) (Bench.address x07) nan Bench.start)
  = Raise (Exception "ValueError" "cannot convert float NaN to integer").
Proof. reflexivity. Qed.


Lemma balance_gate_witness :
  let setup_calls :=
    [ Get "https://ipfs.io"; Get "https://api.mainnet-beta.solana.com";
      NewKeypair; Post "https://api.mainnet-beta.solana.com" ] in
  @main Bench.libraries nat (Bench.env "" 100000000 200 [] Bench.quiet) Bench.start
  = (Ok tt, {| world := 0%nat; trace := setup_calls |})
  /\ exists calls,
       trace (snd (@main Bench.libraries nat (Bench.env "" 200000000 200 [] Bench.quiet)
                     Bench.start))
       = setup_calls ++ Get IMAGE_URL :: calls.
Proof.
  cbv zeta. split.
  - destruct (@balance_gate Bench.libraries nat (Bench.env "" 100000000 200 [] Bench.quiet)
                Bench.start
                {| world := 0%nat;
                   trace := [ Get "https://ipfs.io";
                              Get "https://api.mainnet-beta.solana.com";
                              NewKeypair;
                              Post "https://api.mainnet-beta.solana.com" ] |}
                (Bench.keypair x07) (Bench.keypair x09) 0.10%float eq_refl)
      as (_ & _ & _ & Haborts & _).
    apply Haborts. reflexivity.
  - destruct (@balance_gate Bench.libraries nat (Bench.env "" 200000000 200 [] Bench.quiet)
                Bench.start
                {| world := 0%nat;
                   trace := [ Get "https://ipfs.io";
                              Get "https://api.mainnet-beta.solana.com";
                              NewKeypair;
                              Post "https://api.mainnet-beta.solana.com" ] |}
                (Bench.keypair x07) (Bench.keypair x09) 0.20%float eq_refl)
      as (_ & _ & _ & _ & Hproceeds).
    apply Hproceeds. reflexivity.
Defined.

Lemma script_reports_escaped_exception_witness :
  @script Bench.libraries nat (Bench.env "" 200000000 200 [] Bench.failing_launch) Bench.start
  = ([ Line "Fatal error: launch failed";
       Traceback (Exception "RuntimeError" "launch failed") ], 0).
Proof.
  apply (@script_reports_escaped_exception Bench.libraries nat
           (Bench.env "" 200000000 200 [] Bench.failing_launch) Bench.start
           "RuntimeError" "launch failed").
  reflexivity.
Defined.

(** C3 as stated fails: an exception escapes [main], is reported, and the
    exit status is 0. *)
Lemma script_exit_status_counterexample :
  fst (@main Bench.libraries nat (Bench.env "" 200000000 200 [] Bench.failing_launch)
         Bench.start)
  = Raise (Exception "RuntimeError" "launch failed")
  /\ snd (@script Bench.libraries nat (Bench.env "" 200000000 200 [] Bench.failing_launch)
            Bench.start) = 0.
Proof. split; reflexivity. Qed.

End OnTheBench.

(* ================================================================= *)
(** ** Beyond the claims: the submission pipeline and the buy flow *)

(** Case analysis on the innermost value a goal branches on. *)
Ltac branch_on x :=
  lazymatch x with
  | context [match ?y with _ => _ end] => branch_on y
  | _ => destruct x eqn:?
  end.

Ltac branch :=
  match goal with
  | |- context [match ?x with _ => _ end] => branch_on x; cbv beta iota
  end.

Section SubmissionBeyond.
Import Py Eff Solders Collab Utils RunLaunch.
Context {W : Type} (env : Env W).
Variables (txn : Transaction) (signers : list Keypair) (skip confirm : bool).

(** X1: Whatever the node answers, one call of [send_and_confirm_transaction]
    submits the transaction exactly once, asks for at most one confirmation
    and never sleeps. *)
Theorem send_and_confirm_transaction_submits_once (s : state W) :
  exists w calls,
    snd (send_and_confirm_transaction env txn signers skip confirm s)
    = after s w (Submit :: calls)
    /\ (calls = [] \/ calls = [ConfirmTx]).
Proof.
  unfold send_and_confirm_transaction. cbn [submit_loop].
  unfold asyncio_sleep, try_except, mbind, ask, lift, ret, after.
  rewrite utils_does_not_bind_asyncio. cbn [world trace].
  repeat branch; cbn [snd world trace];
    rewrite <- ?app_assoc; cbn [app];
    eexists; eexists; (split; [reflexivity|]); auto.
Qed.

Lemma accepted_submission_returns_signature (unchecked : bool) (s : state W)
  signature w :
  submit env txn signers unchecked (world s) = (Ok signature, w) ->
  send_and_confirm_transaction env txn signers unchecked false s
  = (Ok (SentSignature signature), after s w [Submit]).
Proof.
  unfold submit. intros Hsent.
  unfold send_and_confirm_transaction. cbn [submit_loop].
  unfold try_except, mbind, ask, ret, after. now rewrite Hsent.
Qed.

(** X2: When the node accepts the submission: without [confirm] the signature is
    returned at once; with [confirm] the status of the confirmation is
    returned; and a confirmation that fails with an error other than rate
    limiting makes the call return [False], although the transaction was
    submitted. *)
Theorem send_and_confirm_transaction_on_accepted_submission
  (s : state W) (signature : Signature) (w : W) :
  submit env txn signers skip (world s) = (Ok signature, w) ->
  send_and_confirm_transaction env txn signers skip false s
  = (Ok (SentSignature signature), after s w [Submit])
  /\ (forall status w',
        confirm_transaction env signature w = (Ok status, w') ->
        send_and_confirm_transaction env txn signers skip true s
        = (Ok (SentStatus status), after s w' [Submit; ConfirmTx]))
  /\ (forall cls msg w',
        confirm_transaction env signature w = (Raise (Exception cls msg), w') ->
        rate_limited msg = false ->
        send_and_confirm_transaction env txn signers skip true s
        = (Ok SentFalse, after s w' [Submit; ConfirmTx])).
Proof.
  unfold submit. intros Hsent.
  unfold send_and_confirm_transaction. cbn [submit_loop].
  unfold try_except, mbind, ask, ret, after, rate_limited. rewrite Hsent.
  cbn [world trace].
  split; [reflexivity|].
  split; [intros status w' Hconfirmed | intros cls msg w' Hconfirmed Hrate];
    rewrite Hconfirmed; [|rewrite Hrate]; now rewrite <- app_assoc.
Qed.

(** One attempt of the buy flow whose submission fails: no success, whether
    the pipeline returned [False] or raised its [NameError]. *)
Lemma buy_attempt_fails (s : state W) cls msg w :
  submit env txn signers true (world s) = (Raise (Exception cls msg), w) ->
  try_except
    (mbind (send_and_confirm_transaction env txn signers true false)
       (fun success => ret (sent_truthy success)))
    (fun _ _ => ret false) s
  = (Ok false, after s w [Submit]).
Proof.
  intros Hfail. unfold try_except, mbind, send_and_confirm_transaction.
  rewrite (submit_loop_failed_attempt env txn signers true false _ _ _ _ _ _ _ _ Hfail).
  destruct (rate_limited msg).
  - cbn [Z.eqb Pos.eqb]. unfold asyncio_sleep, mbind, lift.
    rewrite utils_does_not_bind_asyncio. reflexivity.
  - reflexivity.
Qed.

Lemma buy_loop_retries attempt rest (s : state W) cls msg w :
  submit env txn signers true (world s) = (Raise (Exception cls msg), w) ->
  buy_loop env txn signers (attempt :: rest) s
  = buy_loop env txn signers rest (after s w [Submit; Sleep (1 + attempt)]).
Proof.
  intros Hfail. cbn [buy_loop].
  rewrite (mbind_Ok _ _ _ _ _ (buy_attempt_fails _ _ _ _ Hfail)).
  unfold asyncio_sleep, mbind, lift, emit, after. cbn [world trace].
  now rewrite <- app_assoc.
Qed.

Lemma buy_loop_first_submission_accepted attempt rest (s : state W) signature w :
  submit env txn signers true (world s) = (Ok signature, w) ->
  buy_loop env txn signers (attempt :: rest) s = (Ok true, after s w [Submit]).
Proof.
  intros Hsent. cbn [buy_loop].
  pose proof (accepted_submission_returns_signature true s signature w) as Hsigned.
  erewrite mbind_Ok
    by (apply try_except_Ok; erewrite mbind_Ok by (apply Hsigned, Hsent);
        reflexivity).
  reflexivity.
Qed.

End SubmissionBeyond.

Section BuyFlow.
Import Py Eff Solders Collab Utils RunLaunch.
Context {W : Type} (env : Env W).
Variables (payer : Keypair) (mint : Pubkey) (amount : float) (pdas : pyval).
Variables (buy_txn : Transaction) (extra_signers : list Keypair).

(** X3: When every submission fails, whatever the error text, [do_initial_buy]
    submits three times in all, sleeps 2, 3 and 4 seconds (the last sleep
    after the last attempt) and returns [False]. *)
Theorem do_initial_buy_gives_up_after_three_submissions (s : state W) :
  create_buy_tx env payer mint amount 0%float = Ok (buy_txn, extra_signers) ->
  (forall w, exists cls msg w', submit env buy_txn (payer :: extra_signers) true w = (Raise (Exception cls msg), w')) ->
  exists w',
    do_initial_buy env payer mint amount pdas s
    = (Ok false,
       after s w' [ Call "create_buy_tx"; Submit; Sleep 2; Submit; Sleep 3;
                    Submit; Sleep 4 ]).
Proof.
  intros Hbuilt Hfails.
  destruct (Hfails (world s)) as (c1 & m1 & w1 & F1).
  destruct (Hfails w1) as (c2 & m2 & w2 & F2).
  destruct (Hfails w2) as (c3 & m3 & w3 & F3).
  exists w3. unfold do_initial_buy.
  erewrite mbind_Ok
    by (unfold mbind, emit, lift; rewrite Hbuilt; reflexivity).
  cbv beta iota.
  rewrite (buy_loop_retries env buy_txn _ 1 _
             {| world := world s; trace := trace s ++ [Call "create_buy_tx"] |}
             c1 m1 w1 F1).
  rewrite (buy_loop_retries env buy_txn _ 2 _ (after _ w1 _) c2 m2 w2 F2).
  rewrite (buy_loop_retries env buy_txn _ 3 _ (after (after _ w1 _) w2 _) c3 m3 w3 F3).
  cbn [buy_loop]. unfold ret, after; cbn [world trace].
  now rewrite <- !app_assoc.
Qed.

(** X4: When the first submission is accepted, [do_initial_buy] returns [True]
    after that one submission and without sleeping. *)
Theorem do_initial_buy_succeeds_at_once (s : state W) (signature : Signature) (w : W) :
  create_buy_tx env payer mint amount 0%float = Ok (buy_txn, extra_signers) ->
  submit env buy_txn (payer :: extra_signers) true (world s) = (Ok signature, w) ->
  do_initial_buy env payer mint amount pdas s
  = (Ok true, after s w [Call "create_buy_tx"; Submit]).
Proof.
  intros Hbuilt Hsent. unfold do_initial_buy.
  erewrite mbind_Ok
    by (unfold mbind, emit, lift; rewrite Hbuilt; reflexivity).
  cbv beta iota.
  rewrite (buy_loop_first_submission_accepted env buy_txn _ 1 [2; 3]
             {| world := world s; trace := trace s ++ [Call "create_buy_tx"] |}
             signature w Hsent).
  unfold after; cbn [world trace]. now rewrite <- app_assoc.
Qed.

(** X5: A [KeyboardInterrupt] raised by the node during a submission is caught
    neither by the pipeline nor by the buy flow: both raise it. *)
Theorem keyboard_interrupt_escapes_the_retries (s : state W) (w : W) :
  create_buy_tx env payer mint amount 0%float = Ok (buy_txn, extra_signers) ->
  submit env buy_txn (payer :: extra_signers) true (world s) = (Raise KeyboardInterrupt, w) ->
  send_and_confirm_transaction env buy_txn (payer :: extra_signers) true false s
  = (Raise KeyboardInterrupt, after s w [Submit])
  /\ do_initial_buy env payer mint amount pdas s
     = (Raise KeyboardInterrupt, after s w [Call "create_buy_tx"; Submit]).
Proof.
  intros Hbuilt Hinterrupt. unfold submit in Hinterrupt.
  assert (Hsend : forall s', world s' = world s ->
            send_and_confirm_transaction env buy_txn (payer :: extra_signers) true false s'
            = (Raise KeyboardInterrupt, after s' w [Submit])).
  { intros s' Hsame. unfold send_and_confirm_transaction. cbn [submit_loop].
    unfold try_except, mbind, ask. rewrite Hsame, Hinterrupt. reflexivity. }
  split; [apply Hsend; reflexivity|].
  unfold do_initial_buy.
  erewrite mbind_Ok
    by (unfold mbind, emit, lift; rewrite Hbuilt; reflexivity).
  cbv beta iota. cbn [buy_loop].
  unfold mbind at 1, try_except at 1, mbind at 1.
  rewrite Hsend by reflexivity.
  unfold after; cbn [world trace]. now rewrite <- app_assoc.
Qed.

End BuyFlow.

(* ================================================================= *)
(** ** Beyond the claims: the metadata uploader *)

Section UploaderBeyond.
Import Py Eff Solders Collab Utils RunLaunch.
Context `{Libraries} {W : Type} (env : Env W).

(** What each step of the uploader calls. *)
Lemma download_image_calls url (s : state W) :
  snd (download_image env url s) = after s (world s) [Get url].
Proof.
  unfold download_image, try_except, mbind, emit, lift, ret, after.
  cbn [world trace]. repeat branch; reflexivity.
Qed.

Lemma upload_image_calls content image_url (s : state W) :
  snd (upload_image env content image_url s)
  = after s (world s) [Post IMAGE_UPLOAD_URL].
Proof.
  unfold upload_image, try_except_class, mbind, emit, lift, ret, after.
  cbn [world trace]. repeat branch; reflexivity.
Qed.

Lemma upload_metadata_calls metadata (s : state W) :
  snd (upload_metadata env metadata s)
  = after s (world s) [Post METADATA_UPLOAD_URL].
Proof.
  unfold upload_metadata, try_except_class, mbind, emit, lift, ret, after.
  cbn [world trace]. repeat branch; reflexivity.
Qed.

Lemma resolve_image_bytes_calls image_url image_data file (s : state W) :
  exists fetch,
    snd (resolve_image_bytes env image_url image_data file s)
    = after s (world s) fetch
    /\ (fetch = [] \/ (exists url, fetch = [Get url])
        \/ exists path, fetch = [ReadFile path]).
Proof.
  unfold resolve_image_bytes.
  destruct (bytes_truthy image_data).
  - exists []. unfold ret, after; cbn. rewrite app_nil_r. destruct s; auto.
  - destruct (str_truthy file).
    + exists [ReadFile (match file with Some path => path | None => "" end)].
      split; [|right; right; eexists; reflexivity].
      unfold try_except, mbind, emit, lift, ret, after. cbn [world trace].
      repeat branch; reflexivity.
    + destruct (str_truthy image_url).
      * eexists; split; [apply download_image_calls|]. right; left; eauto.
      * exists []. unfold ret, after; cbn. rewrite app_nil_r. destruct s; auto.
Qed.

(** The image upload ends the function only with [None]. *)
Lemma upload_image_returns_none content image_url (s s' : state W) r :
  upload_image env content image_url s = (Ok (Return r), s') -> r = VNone.
Proof.
  unfold upload_image, try_except_class, mbind, emit, lift, ret.
  repeat branch; congruence.
Qed.

(** The metadata upload returns a value only after an answer with status
    200. *)
Lemma upload_metadata_returns metadata (s s' : state W) v :
  upload_metadata env metadata s = (Ok v, s') ->
  v <> VNone ->
  exists text, metadata_upload env metadata = Ok (200, text).
Proof.
  unfold upload_metadata, metadata_upload, mbind, emit, lift, ret.
  destruct (http_post_json env METADATA_UPLOAD_URL metadata metadata_headers)
    as [[status text]|e]; [|discriminate].
  cbv beta iota. destruct (status =? 200) eqn:Hstatus.
  - apply Z.eqb_eq in Hstatus; subst. eauto.
  - intros [= <- _]. congruence.
Qed.

Lemma try_except_none_state {A} (body : M W A) (v : A) (s : state W) :
  snd (try_except body (fun _ _ => ret v) s) = snd (body s).
Proof.
  unfold try_except, ret. destruct (body s) as [[a|[]] s']; reflexivity.
Qed.

(** The image phase of [prepare_ipfs] (lines 175-231) for inputs that are
    not a Pinata URL: what it yields and what it calls. *)
Lemma image_phase_calls image_url image_data file (s : state W) :
  let phase :=
    mbind (resolve_image_bytes env image_url image_data file) (fun data_to_upload =>
    mbind (if bytes_truthy data_to_upload
           then upload_image env
                  (match data_to_upload with Some content => content | None => [] end)
                  (optional_str image_url)
           else ret (Next (optional_str image_url)))
      (fun uploaded =>
         match uploaded with
         | Return r => ret (Return r)
         | Next image_url =>
             if negb (truthy image_url)
             then ret (Next (VStr DEFAULT_IMAGE_URL))
             else ret (Next image_url)
         end)) in
  exists fetch upload,
    snd (phase s) = after s (world s) (fetch ++ upload)
    /\ (fetch = [] \/ (exists url, fetch = [Get url])
        \/ exists path, fetch = [ReadFile path])
    /\ (upload = [] \/ upload = [Post IMAGE_UPLOAD_URL])
    /\ (forall r, fst (phase s) = Ok (Return r) -> r = VNone).
Proof.
  cbv zeta. unfold mbind.
  destruct (resolve_image_bytes_calls image_url image_data file s)
    as (fetch & Hfetch & Hshape).
  destruct (resolve_image_bytes env image_url image_data file s)
    as [[data|e] s1]; cbn [snd] in Hfetch; subst s1.
  - destruct (bytes_truthy data).
    + pose proof (upload_image_calls
                    (match data with Some content => content | None => [] end)
                    (optional_str image_url) (after s (world s) fetch)) as Hupload.
      pose proof (upload_image_returns_none
                    (match data with Some content => content | None => [] end)
                    (optional_str image_url) (after s (world s) fetch)) as Hnone.
      destruct (upload_image env _ _ (after s (world s) fetch)) as [[[u|r]|e] s2];
        cbn [snd] in Hupload; subst s2;
        exists fetch, [Post IMAGE_UPLOAD_URL]; rewrite after_after;
        try destruct (negb (truthy u)); unfold ret; cbn [fst snd];
        (split; [reflexivity|]); (split; [assumption|]); (split; [now right|]);
        intros r' Hr; try discriminate.
      injection Hr as <-. eapply Hnone; reflexivity.
    + exists fetch, []. unfold ret. rewrite app_nil_r.
      destruct (negb (truthy (optional_str image_url))); cbn [fst snd];
        (split; [reflexivity|]); (split; [assumption|]); (split; [now left|]);
        discriminate.
  - exists fetch, []. rewrite app_nil_r. cbn [fst snd].
    split; [reflexivity|]. split; [assumption|]. split; [now left|]. discriminate.
Qed.

(** X6: [prepare_ipfs] makes at most three calls, in this order: it fetches the
    image (a download or a file read), uploads it, uploads the metadata.  It
    calls nothing else and leaves the rest of the world alone. *)
Theorem prepare_ipfs_calls
  (name symbol description twitter telegram website : string)
  (image_url : option string) (image_data : option bytes) (file : option string)
  (s : state W) :
  exists fetch upload publish,
    snd (prepare_ipfs env name symbol description twitter telegram website
           image_url image_data file s)
    = after s (world s) (fetch ++ upload ++ publish)
    /\ (fetch = [] \/ (exists url, fetch = [Get url])
        \/ exists path, fetch = [ReadFile path])
    /\ (upload = [] \/ upload = [Post IMAGE_UPLOAD_URL])
    /\ (publish = [] \/ publish = [Post METADATA_UPLOAD_URL]).
Proof.
  unfold prepare_ipfs. rewrite try_except_none_state.
  destruct (str_truthy image_url
            && startswith (match image_url with Some url => url | None => "" end)
                 PINATA_GATEWAY).
  - exists [], [], [Post METADATA_UPLOAD_URL].
    unfold mbind at 1, ret at 1. cbv beta iota.
    rewrite upload_metadata_calls. auto.
  - destruct (image_phase_calls image_url image_data file s)
      as (fetch & upload & Hcalls & Hfetch & Hupload & _).
    cbv zeta in Hcalls. unfold mbind at 1.
    match type of Hcalls with snd (?phase s) = _ =>
      destruct (phase s) as [[[image|r]|e] s1] end;
      cbn [snd] in Hcalls; subst s1.
    + exists fetch, upload, [Post METADATA_UPLOAD_URL].
      rewrite upload_metadata_calls, after_after, <- app_assoc. auto.
    + exists fetch, upload, []. unfold ret. rewrite app_nil_r. auto.
    + exists fetch, upload, []. rewrite app_nil_r. auto.
Qed.

(** A value other than [None] that [prepare_ipfs] returns is the value of its
    metadata upload. *)
Lemma prepare_ipfs_returns_the_metadata_upload
  (name symbol description twitter telegram website : string)
  (image_url : option string) (image_data : option bytes) (file : option string)
  (s : state W) (v : pyval) :
  fst (prepare_ipfs env name symbol description twitter telegram website
         image_url image_data file s) = Ok v ->
  v <> VNone ->
  exists image s1 s2,
    upload_metadata env
      (build_metadata name symbol description twitter telegram website image) s1
    = (Ok v, s2).
Proof.
  unfold prepare_ipfs, try_except at 1.
  destruct (str_truthy image_url
            && startswith (match image_url with Some url => url | None => "" end)
                 PINATA_GATEWAY).
  - unfold mbind at 1, ret at 1. cbv beta iota.
    destruct (upload_metadata env _ s) as [[u|[]] s1] eqn:Hmeta; cbn;
      intros [= <-] Hsome; try congruence.
    do 3 eexists; exact Hmeta.
  - destruct (image_phase_calls image_url image_data file s)
      as (_ & _ & _ & _ & _ & Hnone).
    cbv zeta in Hnone. unfold mbind at 1.
    match type of Hnone with forall r, fst (?phase s) = _ -> _ =>
      destruct (phase s) as [[[image|r]|[]] s1] end; cbn [fst] in Hnone.
    + destruct (upload_metadata env _ s1) as [[u|[]] s2] eqn:Hmeta; cbn;
        intros [= <-] Hsome; try congruence.
      do 3 eexists; exact Hmeta.
    + cbn. intros [= <-] Hsome. elim Hsome. now apply Hnone.
    + cbn. intros [= <-]. congruence.
    + discriminate.
    + discriminate.
    + discriminate.
Qed.

(** X7: [prepare_ipfs] returns a value other than [None] only after the metadata
    endpoint has answered with status 200. *)
Theorem prepare_ipfs_uri_needs_accepted_metadata
  (name symbol description twitter telegram website : string)
  (image_url : option string) (image_data : option bytes) (file : option string)
  (s : state W) (v : pyval) :
  fst (prepare_ipfs env name symbol description twitter telegram website
         image_url image_data file s) = Ok v ->
  v <> VNone ->
  exists image text,
    metadata_upload env
      (build_metadata name symbol description twitter telegram website image)
    = Ok (200, text).
Proof.
  intros Hreturned Hsome.
  destruct (prepare_ipfs_returns_the_metadata_upload _ _ _ _ _ _ _ _ _ _ _
              Hreturned Hsome) as (image & s1 & s2 & Hmeta).
  destruct (upload_metadata_returns _ _ _ _ Hmeta Hsome) as [text Htext]. eauto.
Qed.

Lemma pinata_url_is_truthy url :
  startswith url PINATA_GATEWAY = true -> str_truthy (Some url) = true.
Proof. destruct url; [discriminate | reflexivity]. Qed.

Lemma strip_of_uri_is_truthy text :
  startswith text "https://" = true -> truthy (VStr (strip text)) = true.
Proof.
  destruct text as [|c rest]; [discriminate|].
  unfold startswith. cbn [String.prefix].
  destruct (ascii_dec "h" c) as [<-|]; [|discriminate].
  intros _. unfold strip.
  assert (Hkept : lstrip (String "h" rest) = String "h" rest)
    by (destruct rest as [|b [|c rest]]; reflexivity).
  rewrite Hkept. cbn [rstrip]. rewrite Hkept. reflexivity.
Qed.

(** An accepted image upload answered with a bare URI: [image_url] becomes
    that URI. *)
Lemma upload_image_bare_uri content image_url hosted (s : state W) :
  image_upload env content = Ok (200, hosted) ->
  startswith hosted "https://" = true ->
  upload_image env content image_url s
  = (Ok (Next (VStr (strip hosted))), after s (world s) [Post IMAGE_UPLOAD_URL]).
Proof.
  unfold image_upload, upload_image, mbind, emit, lift, ret, after.
  intros Hpost Hbare. cbn [world trace]. rewrite Hpost. cbv beta iota.
  cbn [Z.eqb Pos.eqb]. rewrite Hbare, (strip_of_uri_is_truthy _ Hbare). reflexivity.
Qed.

Lemma after_nil (s : state W) : after s (world s) [] = s.
Proof. unfold after. rewrite app_nil_r. now destruct s. Qed.

Lemma try_except_ext {A} (body body' : M W A) handler (s s' : state W) :
  body s = body' s' -> try_except body handler s = try_except body' handler s'.
Proof. unfold try_except. now intros ->. Qed.

(** The metadata step posts once, whatever the answer, and returns a bare
    URI stripped. *)
Lemma metadata_step_published metadata calls (s : state W) :
  published env metadata calls s (metadata_step env metadata calls s).
Proof.
  split; [reflexivity|]. split.
  - unfold metadata_step.
    now rewrite try_except_none_state, upload_metadata_calls, after_after.
  - intros uri Hmeta Hbare. unfold metadata_step. apply try_except_Ok.
    rewrite (upload_metadata_bare_uri _ _ _ _ Hmeta Hbare).
    now rewrite after_after.
Qed.


Section Inputs.
Variables (name symbol description twitter telegram website : string).


(** X8: An image URL on the Pinata gateway is reused as it is: nothing is
    fetched or uploaded, even when image bytes or a file are given too; the
    one call of the run is the post of the metadata, which point at that
    URL, whatever the endpoint answers. *)
Theorem prepare_ipfs_reuses_pinata_url url image_data file (s : state W) :
  startswith url PINATA_GATEWAY = true ->
  published env
    (build_metadata name symbol description twitter telegram website
       (VStr url))
    [] s
    (prepare_ipfs env name symbol description twitter telegram website
       (Some url) image_data file s).
Proof.
  intros Hpinata.
  replace (prepare_ipfs env name symbol description twitter telegram website
             (Some url) image_data file s)
    with (metadata_step env
            (build_metadata name symbol description twitter telegram website
               (VStr url)) [] s);
    [apply metadata_step_published|].
  unfold metadata_step, prepare_ipfs. apply try_except_ext.
  rewrite (pinata_url_is_truthy _ Hpinata), Hpinata. cbn [andb].
  unfold mbind at 1, ret at 1. cbv beta iota. now rewrite after_nil.
Qed.

(** X9: With no usable image source at all, nothing is fetched or uploaded:
    the one call of the run is the post of the metadata, which point at the
    default image, whatever the endpoint answers. *)
Theorem prepare_ipfs_falls_back_to_default_image image_url image_data file
  (s : state W) :
  str_truthy image_url = false ->
  bytes_truthy image_data = false ->
  str_truthy file = false ->
  published env
    (build_metadata name symbol description twitter telegram website
       (VStr DEFAULT_IMAGE_URL))
    [] s
    (prepare_ipfs env name symbol description twitter telegram website
       image_url image_data file s).
Proof.
  intros Hurl Hdata Hfile.
  replace (prepare_ipfs env name symbol description twitter telegram website
             image_url image_data file s)
    with (metadata_step env
            (build_metadata name symbol description twitter telegram website
               (VStr DEFAULT_IMAGE_URL)) [] s);
    [apply metadata_step_published|].
  unfold metadata_step, prepare_ipfs. apply try_except_ext.
  rewrite Hurl. cbn [andb].
  unfold resolve_image_bytes. rewrite Hdata, Hfile, Hurl.
  unfold mbind at 1, mbind at 1, ret at 1. cbv beta iota.
  cbn [bytes_truthy]. unfold mbind at 1, ret at 1. cbv beta iota.
  assert (Hfalsy : negb (truthy (optional_str image_url)) = true)
    by (destruct image_url as [[|c url]|]; (discriminate || reflexivity)).
  rewrite Hfalsy. unfold ret at 1. now rewrite after_nil.
Qed.

(** X10: Image bytes given by the caller win over a file and over a URL:
    whatever the endpoints answer, the first call of the run is the image
    upload, with no download and no file read before it, and the only call
    that can follow is the post of the metadata.  When the image endpoint
    answers 200 with a bare URI, the metadata point at that URI, stripped. *)
Theorem prepare_ipfs_uploads_given_bytes image_url content file (s : state W) :
  (forall url, image_url = Some url -> startswith url PINATA_GATEWAY = false) ->
  content <> [] ->
  let run :=
    prepare_ipfs env name symbol description twitter telegram website
      image_url (Some content) file s in
  (exists publish,
     snd run = after s (world s) (Post IMAGE_UPLOAD_URL :: publish)
     /\ (publish = [] \/ publish = [Post METADATA_UPLOAD_URL]))
  /\ (forall hosted,
        image_upload env content = Ok (200, hosted) ->
        startswith hosted "https://" = true ->
        published env
          (build_metadata name symbol description twitter telegram website
             (VStr (strip hosted)))
          [Post IMAGE_UPLOAD_URL] s run).
Proof.
  intros Hremote Hcontent. cbv zeta.
  assert (Hgate : str_truthy image_url
                  && startswith (match image_url with Some url => url | None => "" end)
                       PINATA_GATEWAY = false).
  { destruct image_url as [url|]; [|reflexivity].
    rewrite (Hremote url eq_refl). apply andb_false_r. }
  assert (Hbytes : bytes_truthy (Some content) = true)
    by (destruct content; [contradiction | reflexivity]).
  split.
  - unfold prepare_ipfs. rewrite try_except_none_state, Hgate.
    unfold resolve_image_bytes. rewrite Hbytes.
    unfold mbind at 1, mbind at 1, ret at 1. cbv beta iota. rewrite Hbytes.
    unfold mbind at 1.
    pose proof (upload_image_calls content (optional_str image_url) s) as Hupload.
    destruct (upload_image env content (optional_str image_url) s)
      as [[[image|r]|e] s1]; cbn [snd] in Hupload; subst s1.
    + exists [Post METADATA_UPLOAD_URL]. split; [|now right].
      destruct (negb (truthy image)); unfold ret at 1;
        now rewrite upload_metadata_calls, after_after.
    + exists []. split; [reflexivity | now left].
    + exists []. split; [reflexivity | now left].
  - intros hosted Himage Hhosted.
    replace (prepare_ipfs env name symbol description twitter telegram website
               image_url (Some content) file s)
      with (metadata_step env
              (build_metadata name symbol description twitter telegram website
                 (VStr (strip hosted))) [Post IMAGE_UPLOAD_URL] s);
      [apply metadata_step_published|].
    unfold metadata_step, prepare_ipfs. apply try_except_ext.
    rewrite Hgate. unfold resolve_image_bytes. rewrite Hbytes.
    unfold mbind at 1, mbind at 1, ret at 1. cbv beta iota. rewrite Hbytes.
    erewrite mbind_Ok by (apply upload_image_bare_uri; eassumption).
    cbv beta iota. rewrite (strip_of_uri_is_truthy _ Hhosted). cbn [negb].
    unfold ret at 1. reflexivity.
Qed.



End Inputs.

(** The metadata object: the five fixed fields, and each of [twitter],
    [telegram] and [website] present exactly when it is not empty. *)
Lemma build_metadata_fields
  (name symbol description twitter telegram website : string) (image : pyval) :
  let metadata :=
    build_metadata name symbol description twitter telegram website image in
  let optional (key text : string) :=
    getitem metadata key = (if String.eqb text "" then KeyError key else Ok (VStr text)) in
  getitem metadata "name" = Ok (VStr name)
  /\ getitem metadata "symbol" = Ok (VStr symbol)
  /\ getitem metadata "description" = Ok (VStr description)
  /\ getitem metadata "createdOn" = Ok (VStr "https://bonk.fun")
  /\ getitem metadata "image" = Ok image
  /\ optional "twitter" twitter
  /\ optional "telegram" telegram
  /\ optional "website" website.
Proof.
  cbv zeta. unfold build_metadata.
  destruct (String.eqb twitter ""), (String.eqb telegram ""), (String.eqb website "");
    repeat split.
Qed.

(** X13: The functions that catch [Exception] around their whole body never raise
    an exception of that class: the caller sees [None] (or no bytes). *)
Theorem uploader_never_raises_Exception
  (name symbol description twitter telegram website : string)
  (image_url : option string) (image_data : option bytes) (file : option string)
  (url : string) (s : state W) (cls msg : string) :
  fst (prepare_ipfs env name symbol description twitter telegram website
         image_url image_data file s) <> Raise (Exception cls msg)
  /\ fst (download_image env url s) <> Raise (Exception cls msg).
Proof.
  split.
  - unfold prepare_ipfs, try_except at 1.
    match goal with |- context [match ?body s with _ => _ end] =>
      destruct (body s) as [[v|[]] s'] end; cbn; discriminate.
  - unfold download_image, try_except at 1.
    match goal with |- context [match ?body s with _ => _ end] =>
      destruct (body s) as [[v|[]] s'] end; cbn; discriminate.
Qed.

End UploaderBeyond.

(* ================================================================= *)
(** ** Beyond the claims: the launch script *)

Section ScriptBeyond.
Import Py Eff Solders Collab Utils RunLaunch.
Context `{Libraries} {W : Type} (env : Env W).

(** X14: Without a [KEYPAIR] in the environment (unset or empty), [main] ends in
    [sys.exit(1)] before it calls anything, and the script exits with
    status 1 and prints neither a "Fatal error" line nor a traceback. *)
Theorem missing_keypair_exits_with_status_1 (s : state W) :
  str_truthy (getenv env "KEYPAIR") = false ->
  main env s = (Raise (SystemExit 1), s) /\ script env s = ([], 1).
Proof.
  intros Hunset.
  assert (Hmain : main env s = (Raise (SystemExit 1), s)).
  { unfold main, main_setup, validate_environment, KEYPAIR_B58, mbind, raise.
    now rewrite Hunset. }
  split; [exact Hmain|]. unfold script. now rewrite Hmain.
Qed.

(** What [make_keypair_from_base58] does with an exception raised inside
    it, and what it needs to return. *)
Lemma make_keypair_from_base58_rejects b58 (s : state W) :
  (exists cls msg, b58decode b58 = Raise (Exception cls msg))
  \/ (exists raw, b58decode b58 = Ok raw
        /\ (List.length raw <> 64%nat
            \/ exists cls msg, keypair_from_bytes raw = Raise (Exception cls msg))) ->
  make_keypair_from_base58 b58 s = (Raise (SystemExit 1), s).
Proof.
  unfold make_keypair_from_base58, try_except, mbind, lift, raise.
  intros [(cls & msg & ->)|(raw & -> & [Hlength|(cls & msg & Hkey)])].
  - reflexivity.
  - destruct (Z.of_nat (List.length raw) =? 64) eqn:Hsize; [|reflexivity].
    apply Z.eqb_eq in Hsize. lia.
  - destruct (Z.of_nat (List.length raw) =? 64); [|reflexivity].
    cbn [negb]. now rewrite Hkey.
Qed.

(** X15: A key that does not decode, that does not decode to exactly 64 bytes, or
    that [Keypair.from_bytes] refuses, ends in [sys.exit(1)]; and a keypair
    that is returned was made by [Keypair.from_bytes] from exactly 64 decoded
    bytes. *)
Theorem make_keypair_from_base58_needs_64_bytes b58 (s : state W) :
  (forall cls msg,
     b58decode b58 = Raise (Exception cls msg) ->
     make_keypair_from_base58 b58 s = (Raise (SystemExit 1), s))
  /\ (forall raw,
        b58decode b58 = Ok raw -> List.length raw <> 64%nat ->
        make_keypair_from_base58 b58 s = (Raise (SystemExit 1), s))
  /\ (forall raw cls msg,
        b58decode b58 = Ok raw ->
        keypair_from_bytes raw = Raise (Exception cls msg) ->
        make_keypair_from_base58 b58 s = (Raise (SystemExit 1), s))
  /\ (forall keypair s',
        make_keypair_from_base58 b58 s = (Ok keypair, s') ->
        exists raw,
          b58decode b58 = Ok raw /\ List.length raw = 64%nat
          /\ keypair_from_bytes raw = Ok keypair).
Proof.
  repeat split.
  - intros cls msg Hdecode. apply make_keypair_from_base58_rejects. eauto.
  - intros raw Hdecode Hlength. apply make_keypair_from_base58_rejects. eauto.
  - intros raw cls msg Hdecode Hkey. apply make_keypair_from_base58_rejects.
    right. exists raw. eauto.
  - unfold make_keypair_from_base58, try_except, mbind, lift, raise.
    intros keypair s'.
    destruct (b58decode b58) as [raw|[]]; try discriminate.
    destruct (Z.of_nat (List.length raw) =? 64) eqn:Hsize; cbn [negb];
      [|discriminate].
    apply Z.eqb_eq in Hsize.
    destruct (keypair_from_bytes raw) as [k|[]] eqn:Hkey; try discriminate.
    intros [= <- _]. exists raw. repeat split; [lia | exact Hkey].
Qed.

(** X16: With an unusable [KEYPAIR] the script exits with status 1 after the two
    connection probes: no keypair is generated and the node is never
    asked. *)
Theorem unusable_keypair_exits_with_status_1 b58 (s s1 : state W) :
  getenv env "KEYPAIR" = Some b58 ->
  b58 <> "" ->
  test_ssl_connection env s = (Ok tt, s1) ->
  (exists cls msg, b58decode b58 = Raise (Exception cls msg))
  \/ (exists raw, b58decode b58 = Ok raw
        /\ (List.length raw <> 64%nat
            \/ exists cls msg, keypair_from_bytes raw = Raise (Exception cls msg))) ->
  main env s
  = (Raise (SystemExit 1),
     after s (world s)
       [Get "https://ipfs.io"; Get "https://api.mainnet-beta.solana.com"])
  /\ script env s = ([], 1).
Proof.
  intros Hkey Hfilled Hprobes Hrejected.
  assert (Hmain : main env s
                  = (Raise (SystemExit 1),
                     after s (world s)
                       [Get "https://ipfs.io";
                        Get "https://api.mainnet-beta.solana.com"])).
  { pose proof (test_ssl_connection_trace env _ _ Hprobes) as ->.
    unfold main, main_setup, validate_environment, KEYPAIR_B58.
    rewrite Hkey.
    assert (Htruthy : str_truthy (Some b58) = true)
      by (destruct b58; [contradiction | reflexivity]).
    rewrite Htruthy. unfold mbind at 1, mbind at 1, mbind at 1, ret at 1.
    unfold mbind at 1. rewrite Hprobes.
    unfold mbind at 1.
    now rewrite (make_keypair_from_base58_rejects b58 _ Hrejected). }
  split; [exact Hmain|]. unfold script. now rewrite Hmain.
Qed.

(** [get_wallet_balance] when the node gives no balance. *)
Lemma get_wallet_balance_unavailable pubkey (s : state W) :
  (exists cls msg,
     http_post_rpc env (RPC_URL env)
       (rpc_payload "getBalance" [VStr (pubkey_str pubkey)])
     = Raise (Exception cls msg))
  \/ (exists items,
        http_post_rpc env (RPC_URL env)
          (rpc_payload "getBalance" [VStr (pubkey_str pubkey)])
        = Ok (VDict items)
        /\ assoc "result" items = None) ->
  fst (get_wallet_balance env pubkey s) = Ok 0%float.
Proof.
  unfold get_wallet_balance, try_except, mbind, emit, lift, ret.
  intros [(cls & msg & ->)|(items & -> & Hmissing)]; [reflexivity|].
  cbn [has_key]. now rewrite Hmissing.
Qed.

(** X17: The balance [get_wallet_balance] reports: the lamports of the answer
    divided by 1e9; 0.0 when the request raises an exception and when the
    answer has no [result] (an error answer of the node); and it never
    raises an exception itself. *)
Theorem get_wallet_balance_answers pubkey (s : state W) :
  let answer :=
    http_post_rpc env (RPC_URL env)
      (rpc_payload "getBalance" [VStr (pubkey_str pubkey)]) in
  let balance := fst (get_wallet_balance env pubkey s) in
  (forall items result lamports f,
     answer = Ok (VDict items) ->
     assoc "result" items = Some (VDict result) ->
     assoc "value" result = Some (VInt lamports) ->
     float_of_int lamports = Ok f ->
     balance = Ok (f / 1e9)%float)
  /\ (forall items,
        answer = Ok (VDict items) -> assoc "result" items = None ->
        balance = Ok 0%float)
  /\ (forall cls msg, answer = Raise (Exception cls msg) -> balance = Ok 0%float)
  /\ (forall cls msg, balance <> Raise (Exception cls msg)).
Proof.
  cbv zeta. repeat split.
  - intros items result lamports f Hanswer Hresult Hvalue Hfloat.
    unfold get_wallet_balance, try_except, mbind, emit, lift, ret.
    rewrite Hanswer. cbn [has_key getitem]. rewrite Hresult. cbv beta iota.
    cbn [getitem]. rewrite Hvalue. cbv beta iota.
    unfold truediv_float. cbn [as_number bind]. rewrite Hfloat. reflexivity.
  - intros items Hanswer Hmissing. apply get_wallet_balance_unavailable. eauto.
  - intros cls msg Hanswer. apply get_wallet_balance_unavailable. eauto.
  - intros cls msg. unfold get_wallet_balance, try_except at 1.
    match goal with |- context [match ?body s with _ => _ end] =>
      destruct (body s) as [[v|[]] s'] end; cbn; discriminate.
Qed.

Lemma main_setup_balance (s s1 : state W) payer mint balance :
  main_setup env s = (Ok (payer, mint, balance), s1) ->
  exists s', fst (get_wallet_balance env (keypair_pubkey payer) s') = Ok balance.
Proof.
  unfold main_setup. intros Hrun.
  apply mbind_Ok_inv in Hrun as ([] & s_a & _ & Hrun).
  apply mbind_Ok_inv in Hrun as ([] & s_b & _ & Hrun).
  apply mbind_Ok_inv in Hrun as (payer' & s_c & _ & Hrun).
  apply mbind_Ok_inv in Hrun as (mint' & s_d & _ & Hrun).
  apply mbind_Ok_inv in Hrun as (balance' & s_e & Hbalance & Hrun).
  unfold ret in Hrun. injection Hrun as <- _ <- _.
  exists s_d. now rewrite Hbalance.
Qed.

(** X18: When the node gives no balance (the request raises an exception, or the
    answer has no [result]), a run that got through the setup stops at the
    balance gate as if the wallet were empty: [main] returns after the four
    calls of the setup and nothing is uploaded, launched or bought. *)
Theorem main_aborts_when_the_balance_is_unavailable
  (s s1 : state W) (payer mint : Keypair) (balance : float) :
  main_setup env s = (Ok (payer, mint, balance), s1) ->
  (exists cls msg,
     http_post_rpc env (RPC_URL env)
       (rpc_payload "getBalance" [VStr (pubkey_str (keypair_pubkey payer))])
     = Raise (Exception cls msg))
  \/ (exists items,
        http_post_rpc env (RPC_URL env)
          (rpc_payload "getBalance" [VStr (pubkey_str (keypair_pubkey payer))])
        = Ok (VDict items)
        /\ assoc "result" items = None) ->
  main env s = (Ok tt, s1)
  /\ trace s1 = trace s ++ [ Get "https://ipfs.io";
                             Get "https://api.mainnet-beta.solana.com";
                             NewKeypair;
                             Post (RPC_URL env) ].
Proof.
  intros Hsetup Hunavailable.
  split; [|exact (main_setup_trace env _ _ _ _ _ Hsetup)].
  destruct (main_setup_balance _ _ _ _ _ Hsetup) as [s' Hbalance].
  rewrite (get_wallet_balance_unavailable _ s' Hunavailable) in Hbalance.
  injection Hbalance as <-.
  unfold main. rewrite (mbind_Ok _ _ _ _ _ Hsetup). reflexivity.
Qed.

Lemma getitem_raises v key : raises_only_Exception (getitem v key).
Proof. destruct v; cbn; auto. destruct (assoc key items); cbn; auto. Qed.

Lemma bind_raises {A B} (r : result A) (k : A -> result B) :
  raises_only_Exception r -> (forall a, raises_only_Exception (k a)) ->
  raises_only_Exception (bind r k).
Proof. destruct r as [a|[]]; cbn; auto. Qed.

Lemma float_of_int_raises z : raises_only_Exception (float_of_int z).
Proof. unfold float_of_int. destruct (PrimFloat.is_infinity _); cbn; auto. Qed.

Lemma add_raises a b : raises_only_Exception (add a b).
Proof.
  unfold add.
  destruct (as_number a) as [[x|f]|], (as_number b) as [[y|g]|]; cbn [bind];
    try (apply bind_raises; [apply float_of_int_raises | intros; exact I]);
    try exact I;
    destruct a, b; exact I.
Qed.

Lemma ui_amount_raises acc : raises_only_Exception (ui_amount acc).
Proof.
  unfold ui_amount.
  repeat (apply bind_raises; [apply getitem_raises | intros]).
  apply getitem_raises.
Qed.

Lemma sum_amounts_raises accounts :
  forall total, raises_only_Exception (sum_amounts accounts total).
Proof.
  induction accounts as [|acc rest IH]; intros total; cbn [sum_amounts].
  - exact I.
  - apply bind_raises; [apply ui_amount_raises | intros amt_str].
    apply bind_raises; [apply add_raises | apply IH].
Qed.

(** An entry that lacks the path to [uiAmount] makes the sum fail. *)
Lemma sum_amounts_malformed accounts :
  forall total acc,
    In acc accounts -> (exists e, ui_amount acc = Raise e) ->
    exists cls msg, sum_amounts accounts total = Raise (Exception cls msg).
Proof.
  assert (Hraised : forall rest total,
            (exists v, sum_amounts rest total = Ok v) \/
            exists cls msg, sum_amounts rest total = Raise (Exception cls msg)).
  { intros rest total. pose proof (sum_amounts_raises rest total) as Honly.
    destruct (sum_amounts rest total) as [v|[]]; cbn in Honly; eauto; contradiction. }
  induction accounts as [|first rest IH]; intros total acc Hin Hbad; [contradiction|].
  cbn [sum_amounts].
  pose proof (ui_amount_raises first) as Hfirst.
  destruct (ui_amount first) as [amt_str|[]] eqn:Hamount; cbn in Hfirst;
    try contradiction; cbn [bind]; eauto.
  pose proof (add_raises total (match amt_str with VNone => VInt 0 | _ => amt_str end))
    as Hadd.
  destruct (add total _) as [total'|[]]; cbn in Hadd; try contradiction;
    cbn [bind]; eauto.
  destruct Hin as [->|Hin]; [|now apply (IH total' acc)].
  destruct Hbad as [e Hbad]. congruence.
Qed.

(** What [get_token_balance] gives back after the node has answered. *)
Lemma get_token_balance_after_an_answer owner_pubkey mint_address answer (s : state W) :
  token_accounts_query env owner_pubkey mint_address = Ok answer ->
  exists v,
    get_token_balance env owner_pubkey mint_address s
    = (Ok v, after s (world s) [Post (RPC_URL env)]).
Proof.
  unfold token_accounts_query. intros Hanswer.
  unfold get_token_balance, try_except, mbind, emit, lift, ret, after.
  cbn [world trace]. rewrite Hanswer.
  destruct answer as [|b|z|f|t|entries|items]; cbn [has_key TypeError];
    try (eexists; reflexivity).
  - destruct (contains "result" t); cbn; eexists; reflexivity.
  - destruct (existsb _ entries); cbn; eexists; reflexivity.
  - destruct (assoc "result" items) as [result|] eqn:Hresult; cbv beta iota;
      [|eexists; reflexivity].
    cbn [getitem]. rewrite Hresult. cbv beta iota.
    pose proof (getitem_raises result "value") as Hvalue.
    destruct (getitem result "value") as [value|[]]; cbn in Hvalue;
      try contradiction; cbv beta iota; [|eexists; reflexivity].
    destruct (truthy value); cbv beta iota; [|eexists; reflexivity].
    destruct (iterate value) as [accounts|[]] eqn:Hiter; cbv beta iota;
      try (eexists; reflexivity);
      try (destruct value; discriminate).
    pose proof (sum_amounts_raises accounts (VInt 0)) as Hsum.
    destruct (sum_amounts accounts (VInt 0)) as [total|[]]; cbn in Hsum;
      try contradiction; eexists; reflexivity.
Qed.

(** X19: Answers of the node that are not a list of well-formed token accounts:
    an answer without [result] (an error answer) counts as a balance of 0.0;
    one listed entry that lacks the path to [uiAmount] makes the whole
    balance [None], whatever the other entries hold; and the function never
    raises an exception itself. *)
Theorem get_token_balance_on_other_answers (owner_pubkey mint_address : string)
  (s : state W) :
  let answer := token_accounts_query env owner_pubkey mint_address in
  let balance := get_token_balance env owner_pubkey mint_address s in
  let s' := after s (world s) [Post (RPC_URL env)] in
  (forall items,
     answer = Ok (VDict items) -> assoc "result" items = None ->
     balance = (Ok (VFloat 0%float), s'))
  /\ (forall items result accounts acc e,
        answer = Ok (VDict items) ->
        assoc "result" items = Some (VDict result) ->
        assoc "value" result = Some (VList accounts) ->
        In acc accounts -> ui_amount acc = Raise e ->
        balance = (Ok VNone, s'))
  /\ (forall cls msg, fst balance <> Raise (Exception cls msg)).
Proof.
  cbv zeta. unfold token_accounts_query. repeat split.
  - intros items Hanswer Hmissing.
    unfold get_token_balance, try_except, mbind, emit, lift, ret, after.
    cbn [world trace]. rewrite Hanswer. cbn [has_key]. now rewrite Hmissing.
  - intros items result accounts acc e Hanswer Hresult Hvalue Hin Hbad.
    unfold get_token_balance, try_except, mbind, emit, lift, ret, after.
    cbn [world trace]. rewrite Hanswer. cbn [has_key getitem].
    rewrite Hresult. cbv beta iota. cbn [getitem]. rewrite Hvalue. cbv beta iota.
    destruct accounts as [|first rest]; [contradiction|]. cbn [truthy iterate].
    cbv beta iota.
    destruct (sum_amounts_malformed (first :: rest) (VInt 0) acc Hin
                (ex_intro _ e Hbad)) as (cls & msg & ->).
    reflexivity.
  - intros cls msg. unfold get_token_balance, try_except at 1.
    match goal with |- context [match ?body s with _ => _ end] =>
      destruct (body s) as [[v|[]] s1] end; cbn; discriminate.
Qed.

(** The launch phase once [prepare_ipfs] has returned. *)
Lemma main_launch_after_metadata payer mint (s s1 : state W) uri :
  prepare_ipfs_with_ssl_fix env NAME SYMBOL DESCRIPTION IMAGE_URL s = (Ok uri, s1) ->
  main_launch env payer mint s
  = (if negb (truthy uri) then ret tt
     else
       mbind (mbind (emit (Call "launch_token_with_buy")) (fun _ =>
              lift (launch_token_with_buy env payer mint NAME SYMBOL uri 6
                      "1000000000000000" "793100000000000" "85000000000")))
         (fun launch_result =>
       mbind (lift (dict_get launch_result "error")) (fun error =>
       if truthy error then ret tt
       else
         mbind (lift (dict_get_default launch_result "pdas" (VDict []))) (fun pdas =>
         mbind (lift (dict_get launch_result "base_token_account")) (fun _ =>
         mbind (do_initial_buy env payer (keypair_pubkey mint) INITIAL_BUY_SOL pdas)
           (fun bought =>
         if negb bought then ret tt
         else
           mbind (get_token_balance env (pubkey_str (keypair_pubkey payer))
                    (pubkey_str (keypair_pubkey mint)))
             (fun _ => ret tt))))))) s1.
Proof.
  intros Hprepared. unfold main_launch.
  now rewrite (mbind_Ok _ _ _ _ _ Hprepared).
Qed.

(** X20: Without a metadata endpoint that accepts the metadata, the launch phase
    ends with [prepare_ipfs]: it returns (or raises what [prepare_ipfs]
    raised) in the state [prepare_ipfs] left, so that nothing is launched
    and nothing is bought. *)
Theorem main_launch_stops_without_accepted_metadata payer mint (s : state W) :
  (forall image status text,
     metadata_upload env (build_metadata NAME SYMBOL DESCRIPTION "" "" "" image)
     = Ok (status, text) ->
     status <> 200) ->
  main_launch env payer mint s
  = (match fst (prepare_ipfs_with_ssl_fix env NAME SYMBOL DESCRIPTION IMAGE_URL s) with
     | Ok _ => Ok tt
     | Raise e => Raise e
     end,
     snd (prepare_ipfs_with_ssl_fix env NAME SYMBOL DESCRIPTION IMAGE_URL s)).
Proof.
  intros Hrejected.
  destruct (prepare_ipfs_with_ssl_fix env NAME SYMBOL DESCRIPTION IMAGE_URL s)
    as [[uri|e] s1] eqn:Hprepared; cbn [fst snd].
  - rewrite (main_launch_after_metadata _ _ _ _ _ Hprepared).
    destruct (truthy uri) eqn:Htruthy; [|reflexivity]. exfalso.
    assert (Hsome : uri <> VNone) by (intros ->; discriminate).
    unfold prepare_ipfs_with_ssl_fix in Hprepared.
    destruct (prepare_ipfs_returns_the_metadata_upload env _ _ _ _ _ _ _ _ _ s uri
                ltac:(now rewrite Hprepared) Hsome) as (image & s2 & s3 & Hmeta).
    destruct (upload_metadata_returns env _ _ _ _ Hmeta Hsome) as [text Htext].
    now apply (Hrejected _ _ _ Htext).
  - unfold main_launch, mbind at 1. now rewrite Hprepared.
Qed.

(** X21: A launch that reports an error ends the script after the launch call,
    before any buy; an exception raised by the launch escapes [main_launch]
    at the same point. *)
Theorem launch_error_ends_the_script_before_the_buy payer mint (s s1 : state W) uri :
  prepare_ipfs_with_ssl_fix env NAME SYMBOL DESCRIPTION IMAGE_URL s = (Ok uri, s1) ->
  truthy uri = true ->
  let launched :=
    launch_token_with_buy env payer mint NAME SYMBOL uri 6
      "1000000000000000" "793100000000000" "85000000000" in
  let s2 := after s1 (world s1) [Call "launch_token_with_buy"] in
  (forall items error,
     launched = Ok (VDict items) -> assoc "error" items = Some error ->
     truthy error = true ->
     main_launch env payer mint s = (Ok tt, s2))
  /\ (forall e, launched = Raise e -> main_launch env payer mint s = (Raise e, s2)).
Proof.
  intros Hprepared Htruthy. cbv zeta.
  rewrite (main_launch_after_metadata _ _ _ _ _ Hprepared), Htruthy. cbn [negb].
  unfold mbind, emit, lift, ret, after. cbn [world trace].
  split.
  - intros items error -> Herror Hset. cbn [dict_get]. now rewrite Herror, Hset.
  - now intros e ->.
Qed.

(** X22: After a launch without error, when the node accepts the buy at its first
    submission and answers the balance query: [main_launch] builds the buy
    once, submits it once, asks for the token balance once and returns,
    whatever that answer holds. *)
Theorem main_launch_buys_once_after_a_clean_launch payer mint (s s1 : state W)
  uri items buy_txn extra_signers signature w answer :
  prepare_ipfs_with_ssl_fix env NAME SYMBOL DESCRIPTION IMAGE_URL s = (Ok uri, s1) ->
  truthy uri = true ->
  launch_token_with_buy env payer mint NAME SYMBOL uri 6
    "1000000000000000" "793100000000000" "85000000000" = Ok (VDict items) ->
  truthy (match assoc "error" items with Some error => error | None => VNone end)
  = false ->
  create_buy_tx env payer (keypair_pubkey mint) INITIAL_BUY_SOL 0%float
  = Ok (buy_txn, extra_signers) ->
  submit env buy_txn (payer :: extra_signers) true (world s1) = (Ok signature, w) ->
  token_accounts_query env (pubkey_str (keypair_pubkey payer))
    (pubkey_str (keypair_pubkey mint)) = Ok answer ->
  main_launch env payer mint s
  = (Ok tt,
     after s1 w [ Call "launch_token_with_buy"; Call "create_buy_tx"; Submit;
                  Post (RPC_URL env) ]).
Proof.
  intros Hprepared Htruthy Hlaunched Hclean Hbuilt Hsent Hanswer.
  rewrite (main_launch_after_metadata _ _ _ _ _ Hprepared), Htruthy. cbn [negb].
  erewrite mbind_Ok
    by (unfold mbind, emit, lift; rewrite Hlaunched; reflexivity).
  cbn [dict_get dict_get_default]. unfold mbind at 1, lift at 1.
  rewrite Hclean. unfold mbind at 1, lift at 1. unfold mbind at 1, lift at 1.
  unfold do_initial_buy.
  erewrite mbind_Ok; cycle 1.
  { erewrite mbind_Ok
      by (unfold mbind, emit, lift; rewrite Hbuilt; reflexivity).
    cbv beta iota.
    apply (buy_loop_first_submission_accepted env buy_txn _ 1 [2; 3]
             {| world := world s1;
                trace := (trace s1 ++ [Call "launch_token_with_buy"])
                         ++ [Call "create_buy_tx"] |}
             signature w Hsent). }
  cbn [negb].
  destruct (get_token_balance_after_an_answer _ _ _
              (after {| world := world s1;
                        trace := (trace s1 ++ [Call "launch_token_with_buy"])
                                 ++ [Call "create_buy_tx"] |} w [Submit])
              Hanswer) as [v Hbalance].
  rewrite (mbind_Ok _ _ _ _ _ Hbalance).
  unfold ret, after; cbn [world trace]. now rewrite <- !app_assoc.
Qed.

End ScriptBeyond.

(* ================================================================= *)
(** ** Beyond the claims: the length-prefixed buffer and the curve *)

Section NumbersBeyond.
Import Py.

(** Integers of more than 1024 bits are out of the range of binary64. *)
Lemma digits2_pos_size p : digits2_pos p = Pos.size p.
Proof. induction p; cbn; congruence. Qed.

Lemma shr_1_m mrs : 0 <= shr_m mrs -> shr_m (shr_1 mrs) = Z.div2 (shr_m mrs).
Proof. destruct mrs as [[|[p|p|]|p] r s]; cbn; intros; try reflexivity; lia. Qed.

Lemma iter_pos_shr_1 p : forall mrs, 0 <= shr_m mrs ->
  shr_m (iter_pos shr_1 p mrs) = Z.shiftr (shr_m mrs) (Z.pos p)
  /\ 0 <= shr_m (iter_pos shr_1 p mrs).
Proof.
  assert (Hstep : forall mrs, 0 <= shr_m mrs ->
            shr_m (shr_1 mrs) = Z.shiftr (shr_m mrs) 1 /\ 0 <= shr_m (shr_1 mrs)).
  { intros mrs H. rewrite shr_1_m by assumption. rewrite Z.div2_spec. split; [reflexivity|].
    apply Z.shiftr_nonneg; assumption. }
  induction p as [p IH|p IH|]; intros mrs H; cbn [iter_pos].
  - destruct (Hstep mrs H) as [E1 N1].
    destruct (IH _ N1) as [E2 N2]. destruct (IH _ N2) as [E3 N3].
    split; [|assumption]. rewrite E3, E2, E1, !Z.shiftr_shiftr by lia. f_equal. lia.
  - destruct (IH _ H) as [E2 N2]. destruct (IH _ N2) as [E3 N3].
    split; [|assumption]. rewrite E3, E2, !Z.shiftr_shiftr by lia. f_equal. lia.
  - apply Hstep, H.
Qed.

Lemma size_bounds m : 2 ^ (Z.pos (Pos.size m) - 1) <= Z.pos m < 2 ^ Z.pos (Pos.size m).
Proof.
  pose proof (Pos.size_gt m) as Hgt. pose proof (Pos.size_le m) as Hle.
  split.
  - assert (2 ^ Z.pos (Pos.size m) <= 2 * Z.pos m).
    { change (2 * Z.pos m) with (Z.pos (m~0)). rewrite <- Pos2Z.inj_pow. apply Pos2Z.pos_le_pos, Hle. }
    replace (Z.pos (Pos.size m)) with (Z.succ (Z.pos (Pos.size m) - 1)) in H by lia.
    rewrite Z.pow_succ_r in H by lia. lia.
  - rewrite <- Pos2Z.inj_pow. apply Pos2Z.pos_lt_pos, Hgt.
Qed.

Lemma size_above m : 2 ^ 1024 <= Z.pos m -> 1024 < Z.pos (Pos.size m).
Proof.
  intros Hbig. destruct (size_bounds m) as [_ Hup].
  destruct (Z.lt_ge_cases 1024 (Z.pos (Pos.size m))) as [|Hle]; [assumption|].
  assert (2 ^ Z.pos (Pos.size m) <= 2 ^ 1024) by (apply Z.pow_le_mono_r; lia). lia.
Qed.

Lemma shiftr_below_size m n :
  0 <= n < Z.pos (Pos.size m) -> 0 < Z.shiftr (Z.pos m) n.
Proof.
  intros Hn. rewrite Z.shiftr_div_pow2 by lia.
  apply Z.div_str_pos. split; [apply Z.pow_pos_nonneg; lia|].
  destruct (size_bounds m) as [Hlow _].
  etransitivity; [|exact Hlow]. apply Z.pow_le_mono_r; lia.
Qed.

Lemma round_nearest_even_pos mx lx : 0 < mx -> 0 < round_nearest_even mx lx.
Proof. destruct lx as [|[]]; cbn; try destruct (Z.even mx); lia. Qed.

Lemma shr_m_record_of_loc m l : shr_m (shr_record_of_loc m l) = m.
Proof. destruct l as [|[]]; reflexivity. Qed.

(** Rounding an integer of more than 1024 bits overflows. *)
Lemma binary_round_aux_overflow sx m l :
  2 ^ 1024 <= Z.pos m ->
  binary_round_aux prec emax sx (Z.pos m) 0 l = S754_infinity sx.
Proof.
  intros Hbig. pose proof (size_above m Hbig) as Hsize.
  assert (Hfexp : forall d e, 972 <= e -> 1 <= d -> fexp prec emax (d + e) = d + e - 53)
    by (intros; unfold fexp, emin, prec, emax; lia).
  assert (Hfexp0 : fexp prec emax (Z.pos (Pos.size m) + 0) = Z.pos (Pos.size m) - 53)
    by (unfold fexp, emin, prec, emax; lia).
  unfold binary_round_aux, shr_fexp at 1. cbn [Zdigits2].
  rewrite digits2_pos_size, Hfexp0.
  destruct (Z.pos (Pos.size m) - 53 - 0) as [|p|p] eqn:Hshift; try lia.
  cbn [shr].
  destruct (iter_pos_shr_1 p (shr_record_of_loc (Z.pos m) l))
    as [Hm _]; [rewrite shr_m_record_of_loc; lia|].
  rewrite shr_m_record_of_loc in Hm.
  assert (Hpos : 0 < shr_m (iter_pos shr_1 p (shr_record_of_loc (Z.pos m) l))).
  { rewrite Hm. apply shiftr_below_size. lia. }
  set (mrs' := iter_pos shr_1 p _) in *.
  pose proof (round_nearest_even_pos (shr_m mrs') (loc_of_shr_record mrs') Hpos) as Hr.
  destruct (round_nearest_even (shr_m mrs') (loc_of_shr_record mrs')) as [|r|r]; try lia.
  unfold shr_fexp. cbn [Zdigits2 shr_record_of_loc]. rewrite digits2_pos_size.
  rewrite Hfexp by lia.
  unfold shr.
  destruct (Z.pos (Pos.size r) + (0 + Z.pos p) - 53 - (0 + Z.pos p)) as [|p2|p2] eqn:Hshift2.
  - cbn [shr_m]. replace (0 + Z.pos p <=? emax - prec) with false; [reflexivity|].
    symmetry; apply Z.leb_gt; unfold emax, prec; lia.
  - destruct (iter_pos_shr_1 p2 {| shr_m := Z.pos r; shr_r := false; shr_s := false |})
      as [Hm2 _]; [cbn; lia|]. cbn [shr_m] in Hm2.
    assert (Hpos2 : 0 < shr_m (iter_pos shr_1 p2
                               {| shr_m := Z.pos r; shr_r := false; shr_s := false |})).
    { rewrite Hm2. apply shiftr_below_size. lia. }
    destruct (shr_m (iter_pos shr_1 p2 _)) as [|m2|m2]; try lia.
    replace (0 + Z.pos p + Z.pos p2 <=? emax - prec) with false; [reflexivity|].
    symmetry; apply Z.leb_gt; unfold emax, prec; lia.
  - cbn [shr_m]. replace (0 + Z.pos p <=? emax - prec) with false; [reflexivity|].
    symmetry; apply Z.leb_gt; unfold emax, prec; lia.
Qed.

Lemma binary_normalize_overflow z :
  2 ^ 1024 <= z -> binary_normalize prec emax z 0 false = S754_infinity false.
Proof.
  intros Hbig. destruct z as [|m|m]; try (exfalso; lia).
  pose proof (size_above m Hbig) as Hsize.
  unfold binary_normalize, binary_round.
  rewrite digits2_pos_size.
  assert (Hfexp0 : fexp prec emax (Z.pos (Pos.size m) + 0) = Z.pos (Pos.size m) - 53)
    by (unfold fexp, emin, prec, emax; lia).
  rewrite Hfexp0. unfold shl_align.
  destruct (Z.pos (Pos.size m) - 53 - 0) as [|p|p] eqn:Hshift; try lia.
  now apply binary_round_aux_overflow.
Qed.

Lemma SFdiv_core_binary_big a b :
  0 < b -> 2 ^ 1024 * b <= a ->
  exists l, SFdiv_core_binary prec emax a 0 b 0 = (a / b, 0, l) /\ 2 ^ 1024 <= a / b.
Proof.
  intros Hb Hbig.
  assert (Hq : 2 ^ 1024 <= a / b) by (apply Z.div_le_lower_bound; lia).
  assert (Ha : 2 ^ 1024 <= a) by nia.
  unfold SFdiv_core_binary.
  destruct a as [|m|m]; try (exfalso; lia).
  destruct b as [|n|n]; try (exfalso; lia).
  change (Zdigits2 (Z.pos m)) with (Z.pos (digits2_pos m)).
  change (Zdigits2 (Z.pos n)) with (Z.pos (digits2_pos n)).
  rewrite (digits2_pos_size m), (digits2_pos_size n).
  pose proof (size_above m Ha) as Hsize.
  destruct (size_bounds m) as [_ Hupm]. destruct (size_bounds n) as [Hlown _].
  assert (Hsizes : Z.pos (Pos.size n) + 1023 <= Z.pos (Pos.size m)).
  { destruct (Z.le_gt_cases (Z.pos (Pos.size n) + 1023) (Z.pos (Pos.size m))) as [|Hlt];
      [assumption|exfalso].
    assert (2 ^ Z.pos (Pos.size m) <= 2 ^ (Z.pos (Pos.size n) + 1023))
      by (apply Z.pow_le_mono_r; lia).
    replace (Z.pos (Pos.size n) + 1023) with (1024 + (Z.pos (Pos.size n) - 1)) in H by lia.
    rewrite Z.pow_add_r in H by lia. nia. }
  match goal with |- context [Z.min ?a ?b] =>
    replace (Z.min a b) with 0 by (unfold fexp, emin, prec, emax; lia) end.
  change (0 - 0 - 0) with 0. cbv iota.
  unfold Z.div in *. destruct (Z.div_eucl (Z.pos m) (Z.pos n)) as [q r].
  eexists. split; [reflexivity | exact Hq].
Qed.

Lemma float_of_int_overflow z :
  2 ^ 1024 <= z ->
  float_of_int z
  = Raise (Exception "OverflowError" "int too large to convert to float").
Proof.
  intros Hbig. unfold float_of_int. now rewrite (binary_normalize_overflow z Hbig).
Qed.

Lemma int_truediv_overflow a b :
  0 < b -> 2 ^ 1024 * b <= Z.abs a ->
  Arith.int_truediv a b
  = Raise (Exception "OverflowError"
             "integer division result too large for a float").
Proof.
  intros Hb Hbig. unfold Arith.int_truediv.
  assert (Hpow : 0 < 2 ^ 1024) by (apply Z.pow_pos_nonneg; lia).
  replace (b =? 0) with false by (symmetry; apply Z.eqb_neq; lia).
  replace (a =? 0) with false by (symmetry; apply Z.eqb_neq; nia).
  replace (Z.abs b) with b by lia.
  destruct (SFdiv_core_binary_big (Z.abs a) b Hb Hbig) as (l & -> & Hq).
  destruct (Z.abs a / b) as [|q|q]; try (exfalso; lia).
  rewrite (binary_round_aux_overflow _ q l Hq).
  destruct (xorb (a <? 0) (b <? 0)); reflexivity.
Qed.

End NumbersBeyond.

Section RestBeyond.
Import Py UtilsRest.

Lemma byte_of_value z : Z.of_N (Byte.to_N (byte_of z)) = z mod 256.
Proof.
  unfold byte_of.
  assert (Hrange : 0 <= z mod 256 < 256) by (apply Z.mod_pos_bound; lia).
  destruct (Byte.of_N (Z.to_N (z mod 256))) as [b|] eqn:Hbyte.
  - apply Byte.to_of_N in Hbyte. rewrite Hbyte. lia.
  - apply Byte.of_N_None_iff in Hbyte. lia.
Qed.

Lemma u32_le_of_packed n :
  0 <= n < 2 ^ 32 ->
  u32_le [byte_of n; byte_of (n / 2 ^ 8); byte_of (n / 2 ^ 16); byte_of (n / 2 ^ 24)]
  = n.
Proof.
  intros Hrange. unfold u32_le. cbn [fold_right]. rewrite !byte_of_value.
  change (2 ^ 8) with 256. change (2 ^ 16) with (256 * 256).
  change (2 ^ 24) with (256 * 256 * 256).
  change (2 ^ 32) with 4294967296 in Hrange.
  rewrite <- !Z.div_div by lia.
  pose proof (Z.div_mod n 256 ltac:(lia)).
  pose proof (Z.div_mod (n / 256) 256 ltac:(lia)).
  pose proof (Z.div_mod (n / 256 / 256) 256 ltac:(lia)).
  assert (n / 256 / 256 / 256 < 256)
    by (repeat (apply Z.div_lt_upper_bound; [lia|]); lia).
  assert (0 <= n / 256 / 256 / 256) by (repeat apply Z.div_pos; lia).
  rewrite (Z.mod_small (n / 256 / 256 / 256) 256) by lia.
  lia.
Qed.

(** X23: The buffer frames the string: in a stream that starts with the buffer
    of [string_data], the first four bytes read as a little-endian unsigned
    integer give the number of bytes of the string, as many bytes after
    them are the string, and what follows is the rest of the stream. *)
Theorem buffer_from_string_frames string_data (out rest : bytes) :
  buffer_from_string string_data = Ok out ->
  let stream := out ++ rest in
  let n := Z.to_nat (u32_le (firstn 4 stream)) in
  n = List.length (encode string_data)
  /\ string_of_list_byte (firstn n (skipn 4 stream)) = string_data
  /\ skipn (4 + n) stream = rest.
Proof.
  unfold buffer_from_string, struct_pack_I.
  set (size := Z.of_nat (List.length (encode string_data))).
  destruct ((0 <=? size) && (size <? 2 ^ 32)) eqn:Hrange; [|discriminate].
  apply andb_prop in Hrange as [Hlow Hhigh].
  apply Z.leb_le in Hlow. apply Z.ltb_lt in Hhigh.
  cbn [bind]. intros [= <-]. cbv zeta.
  cbn [app firstn skipn].
  change (Z.pow_pos 2 8) with (2 ^ 8). change (Z.pow_pos 2 16) with (2 ^ 16).
  change (Z.pow_pos 2 24) with (2 ^ 24).
  rewrite (u32_le_of_packed size) by lia.
  unfold size. rewrite Nat2Z.id.
  split; [reflexivity|].
  split.
  - rewrite firstn_app, Nat.sub_diag, firstn_all. cbn [firstn].
    rewrite app_nil_r. apply string_of_list_byte_of_string.
  - cbn [Nat.add skipn]. rewrite skipn_app, Nat.sub_diag, skipn_all. reflexivity.
Qed.

(** Ten to the power of a billion has more than 1024 bits, with room for a
    divisor of [10 ** 9]. *)
Lemma scale_factor_is_huge : 2 ^ 1024 * 10 ^ 9 <= 10 ^ (10 ^ 9).
Proof.
  transitivity (10 ^ 400).
  - apply Z.leb_le. vm_compute. reflexivity.
  - apply Z.pow_le_mono_r; [lia|]. apply Z.leb_le. vm_compute. reflexivity.
Qed.

(** X24: [calculate_tokens_receive] returns for no numbers at all: its scale
    factor is [10 ** LAMPORTS_PER_SOL], ten to the power of a billion, so a
    [float] argument cannot be multiplied by it and an [int] argument gives
    lamports whose quotient by [LAMPORTS_PER_SOL] is out of the range of a
    [float]; with [previous_sol] the integer 0 the curve divides by zero. *)
Theorem calculate_tokens_receive_always_raises (sol_amount previous_sol slippage : number) :
  calculate_tokens_receive sol_amount previous_sol slippage
  = Raise
      match previous_sol, sol_amount with
      | NInt previous, NInt _ =>
          if previous =? 0
          then Exception "ZeroDivisionError" "float division by zero"
          else Exception "OverflowError"
                 "integer division result too large for a float"
      | _, _ => Exception "OverflowError" "int too large to convert to float"
      end.
Proof.
  pose proof scale_factor_is_huge as Hhuge.
  unfold calculate_tokens_receive. cbv zeta.
  revert Hhuge. generalize (10 ^ (10 ^ 9)). intros huge Hhuge.
  assert (Hfloat : float_of_int huge
                   = Raise (Exception "OverflowError"
                              "int too large to convert to float")).
  { apply float_of_int_overflow.
    assert (0 < 2 ^ 1024) by (apply Z.pow_pos_nonneg; lia).
    assert (1 <= 10 ^ 9) by (apply Z.leb_le; vm_compute; reflexivity).
    nia. }
  destruct previous_sol as [previous|f].
  - cbn [Arith.mul Arith.to_int bind].
    destruct sol_amount as [amount|g].
    + cbn [Arith.mul Arith.to_int bind Arith.truediv].
      destruct (Z.eqb_spec previous 0) as [->|Hprevious].
      * rewrite Z.mul_0_l.
        change (Arith.int_truediv 0 (10 ^ 9)) with (Ok 0%float : result float).
        cbn [bind Arith.to_float].
        change (float_of_int (32190005730 * 10 ^ 6))
          with (Ok 32190005730000000%float : result float).
        reflexivity.
      * rewrite int_truediv_overflow; [reflexivity | | ].
        -- apply Z.ltb_lt. vm_compute. reflexivity.
        -- rewrite Z.abs_mul. 
           assert (0 <= huge) by (assert (0 < 2 ^ 1024 * 10 ^ 9)
                                    by (apply Z.ltb_lt; vm_compute; reflexivity); lia).
           rewrite (Z.abs_eq huge) by assumption. nia.
    + unfold Arith.mul at 1, Arith.mixed. cbn [Arith.to_float bind].
      now rewrite Hfloat.
  - unfold Arith.mul at 1, Arith.mixed. cbn [Arith.to_float bind].
    now rewrite Hfloat.
Qed.

End RestBeyond.

(* ================================================================= *)
(** ** The further theorems on the test bench *)

Section BeyondOnTheBench.
Import Py Eff Solders Collab Utils RunLaunch UtilsRest.

Lemma send_and_confirm_transaction_on_accepted_submission_witness :
  send_and_confirm_transaction (Rig.with_send Rig.accepting Rig.base)
    Bench.transaction [] true false Bench.start
  = (Ok (SentSignature Rig.signature), {| world := 1%nat; trace := [Submit] |}).
Proof.
  exact (proj1 (send_and_confirm_transaction_on_accepted_submission
                  (Rig.with_send Rig.accepting Rig.base) Bench.transaction [] true
                  Bench.start Rig.signature 1%nat eq_refl)).
Defined.

Lemma do_initial_buy_gives_up_after_three_submissions_witness :
  exists sent,
    do_initial_buy (Bench.env "Blockhash not found" 0 200 [] Bench.quiet)
      (Bench.keypair x07) (Bench.address x09) 0.05%float (VDict []) Bench.start
    = (Ok false,
       {| world := sent;
          trace := [ Call "create_buy_tx"; Submit; Sleep 2; Submit; Sleep 3;
                     Submit; Sleep 4 ] |}).
Proof.
  apply (do_initial_buy_gives_up_after_three_submissions
           (Bench.env "Blockhash not found" 0 200 [] Bench.quiet)
           (Bench.keypair x07) (Bench.address x09) 0.05%float (VDict [])
           Bench.transaction [] Bench.start eq_refl).
  intros w. exists "RPCException", "Blockhash not found", (S w). reflexivity.
Defined.

Lemma do_initial_buy_succeeds_at_once_witness :
  do_initial_buy (Rig.with_send Rig.accepting Rig.base)
    (Bench.keypair x07) (Bench.address x09) 0.05%float (VDict []) Bench.start
  = (Ok true, {| world := 1%nat; trace := [Call "create_buy_tx"; Submit] |}).
Proof.
  exact (do_initial_buy_succeeds_at_once (Rig.with_send Rig.accepting Rig.base)
           (Bench.keypair x07) (Bench.address x09) 0.05%float (VDict [])
           Bench.transaction [] Bench.start Rig.signature 1%nat eq_refl eq_refl).
Defined.

Lemma keyboard_interrupt_escapes_the_retries_witness :
  do_initial_buy (Rig.with_send (Rig.failing KeyboardInterrupt) Rig.base)
    (Bench.keypair x07) (Bench.address x09) 0.05%float (VDict []) Bench.start
  = (Raise KeyboardInterrupt,
     {| world := 1%nat; trace := [Call "create_buy_tx"; Submit] |}).
Proof.
  exact (proj2 (keyboard_interrupt_escapes_the_retries
                  (Rig.with_send (Rig.failing KeyboardInterrupt) Rig.base)
                  (Bench.keypair x07) (Bench.address x09) 0.05%float (VDict [])
                  Bench.transaction [] Bench.start 1%nat eq_refl eq_refl)).
Defined.

Lemma prepare_ipfs_uri_needs_accepted_metadata_witness :
  exists image text,
    metadata_upload (Bench.env "" 0 500 [] Bench.quiet)
      (build_metadata NAME SYMBOL DESCRIPTION "" "" "" image)
    = Ok (200, text).
Proof.
  apply (@prepare_ipfs_uri_needs_accepted_metadata Bench.libraries nat
           (Bench.env "" 0 500 [] Bench.quiet) NAME SYMBOL DESCRIPTION "" "" ""
           (Some IMAGE_URL) None None Bench.start (VStr "https://gated.chat/meta/1")).
  - reflexivity.
  - discriminate.
Defined.

Lemma prepare_ipfs_reuses_pinata_url_witness :
  @prepare_ipfs Bench.libraries nat Rig.base NAME SYMBOL DESCRIPTION "" "" ""
    (Some DEFAULT_IMAGE_URL) None None Bench.start
  = (Ok (VStr "https://gated.chat/meta/1"),
     {| world := 0%nat; trace := [Post METADATA_UPLOAD_URL] |}).
Proof.
  destruct (@prepare_ipfs_reuses_pinata_url Bench.libraries nat Rig.base
              NAME SYMBOL DESCRIPTION "" "" "" DEFAULT_IMAGE_URL None None
              Bench.start eq_refl) as (_ & _ & Hbare).
  exact (Hbare "https://gated.chat/meta/1" eq_refl eq_refl).
Defined.

Lemma prepare_ipfs_falls_back_to_default_image_witness :
  @prepare_ipfs Bench.libraries nat Rig.base NAME SYMBOL DESCRIPTION "" "" ""
    None None None Bench.start
  = (Ok (VStr "https://gated.chat/meta/1"),
     {| world := 0%nat; trace := [Post METADATA_UPLOAD_URL] |}).
Proof.
  destruct (@prepare_ipfs_falls_back_to_default_image Bench.libraries nat Rig.base
              NAME SYMBOL DESCRIPTION "" "" "" None None None Bench.start
              eq_refl eq_refl eq_refl) as (_ & _ & Hbare).
  exact (Hbare "https://gated.chat/meta/1" eq_refl eq_refl).
Defined.

Lemma prepare_ipfs_uploads_given_bytes_witness :
  snd (@prepare_ipfs Bench.libraries nat
         (Rig.with_image_answer (Raise (Exception "ClientError" "reset")) Rig.base)
         NAME SYMBOL DESCRIPTION "" "" "" (Some IMAGE_URL) (Some [x2a])
         (Some "logo.png") Bench.start)
  = {| world := 0%nat; trace := [Post IMAGE_UPLOAD_URL] |}
  /\ @prepare_ipfs Bench.libraries nat
       (Rig.with_image_answer (Ok (200, "https://gated.chat/img/1")) Rig.base)
       NAME SYMBOL DESCRIPTION "" "" "" None (Some [x2a]) (Some "logo.png")
       Bench.start
     = (Ok (VStr "https://gated.chat/meta/1"),
        {| world := 0%nat;
           trace := [Post IMAGE_UPLOAD_URL; Post METADATA_UPLOAD_URL] |}).
Proof.
  assert (Hcontent : [x2a] <> []) by discriminate.
  split.
  - assert (Hremote : forall url,
              Some IMAGE_URL = Some url -> startswith url PINATA_GATEWAY = false)
      by (intros url [= <-]; reflexivity).
    destruct (@prepare_ipfs_uploads_given_bytes Bench.libraries nat
                (Rig.with_image_answer (Raise (Exception "ClientError" "reset"))
                   Rig.base)
                NAME SYMBOL DESCRIPTION "" "" "" (Some IMAGE_URL) [x2a]
                (Some "logo.png") Bench.start Hremote Hcontent)
      as ((publish & Hcalls & Hshape) & _).
    reflexivity.
  - assert (Hremote : forall url,
              None = Some url -> startswith url PINATA_GATEWAY = false)
      by discriminate.
    destruct (@prepare_ipfs_uploads_given_bytes Bench.libraries nat
                (Rig.with_image_answer (Ok (200, "https://gated.chat/img/1"))
                   Rig.base)
                NAME SYMBOL DESCRIPTION "" "" "" None [x2a] (Some "logo.png")
                Bench.start Hremote Hcontent)
      as (_ & Hhosted).
    destruct (Hhosted "https://gated.chat/img/1" eq_refl eq_refl)
      as (_ & _ & Hbare).
    exact (Hbare "https://gated.chat/meta/1" eq_refl eq_refl).
Defined.



Lemma missing_keypair_exits_with_status_1_witness :
  @script Bench.libraries nat (Rig.with_getenv (fun _ => None) Rig.base) Bench.start
  = ([], 1).
Proof.
  exact (proj2 (@missing_keypair_exits_with_status_1 Bench.libraries nat
                  (Rig.with_getenv (fun _ => None) Rig.base) Bench.start eq_refl)).
Defined.

Lemma unusable_keypair_exits_with_status_1_witness :
  @script (Rig.with_b58decode (fun _ => Ok [x00]) Bench.libraries) nat Rig.base
    Bench.start
  = ([], 1).
Proof.
  refine (proj2 (@unusable_keypair_exits_with_status_1
                   (Rig.with_b58decode (fun _ => Ok [x00]) Bench.libraries) nat
                   Rig.base "secret" Bench.start
                   {| world := 0%nat;
                      trace := [ Get "https://ipfs.io";
                                 Get "https://api.mainnet-beta.solana.com" ] |}
                   eq_refl _ eq_refl _)).
  - discriminate.
  - right. exists [x00]. split; [reflexivity|]. left. discriminate.
Defined.

Lemma main_aborts_when_the_balance_is_unavailable_witness :
  @main Bench.libraries nat
    (Rig.with_rpc_answer (Raise (Exception "ClientError" "unreachable")) Rig.base)
    Bench.start
  = (Ok tt,
     {| world := 0%nat;
        trace := [ Get "https://ipfs.io"; Get "https://api.mainnet-beta.solana.com";
                   NewKeypair; Post "https://api.mainnet-beta.solana.com" ] |}).
Proof.
  refine (proj1 (@main_aborts_when_the_balance_is_unavailable Bench.libraries nat
                   (Rig.with_rpc_answer (Raise (Exception "ClientError" "unreachable"))
                      Rig.base)
                   Bench.start _ (Bench.keypair x07) (Bench.keypair x09) 0%float
                   eq_refl _)).
  left. exists "ClientError", "unreachable". reflexivity.
Defined.

Lemma main_launch_stops_without_accepted_metadata_witness :
  @main_launch Bench.libraries nat
    (Rig.with_metadata_answer (Ok (500, "")) Rig.base)
    (Bench.keypair x07) (Bench.keypair x09) Bench.start
  = (Ok tt,
     {| world := 0%nat;
        trace := [Get IMAGE_URL; Post IMAGE_UPLOAD_URL; Post METADATA_UPLOAD_URL] |}).
Proof.
  refine (@main_launch_stops_without_accepted_metadata Bench.libraries nat
            (Rig.with_metadata_answer (Ok (500, "")) Rig.base)
            (Bench.keypair x07) (Bench.keypair x09) Bench.start _).
  intros image status text Hanswer. injection Hanswer as <- _. discriminate.
Defined.

Lemma launch_error_ends_the_script_before_the_buy_witness :
  @main_launch Bench.libraries nat
    (Rig.with_launch (Ok (VDict [("error", VStr "slot taken")])) Rig.base)
    (Bench.keypair x07) (Bench.keypair x09) Bench.start
  = (Ok tt,
     {| world := 0%nat;
        trace := [ Get IMAGE_URL; Post IMAGE_UPLOAD_URL; Post METADATA_UPLOAD_URL;
                   Call "launch_token_with_buy" ] |}).
Proof.
  destruct (@launch_error_ends_the_script_before_the_buy Bench.libraries nat
              (Rig.with_launch (Ok (VDict [("error", VStr "slot taken")])) Rig.base)
              (Bench.keypair x07) (Bench.keypair x09) Bench.start
              {| world := 0%nat;
                 trace := [ Get IMAGE_URL; Post IMAGE_UPLOAD_URL;
                            Post METADATA_UPLOAD_URL ] |}
              (VStr "https://gated.chat/meta/1") eq_refl eq_refl) as [Herror _].
  apply (Herror [("error", VStr "slot taken")] (VStr "slot taken")); reflexivity.
Defined.

Lemma main_launch_buys_once_after_a_clean_launch_witness :
  @main_launch Bench.libraries nat (Rig.with_send Rig.accepting Rig.base)
    (Bench.keypair x07) (Bench.keypair x09) Bench.start
  = (Ok tt,
     {| world := 1%nat;
        trace := [ Get IMAGE_URL; Post IMAGE_UPLOAD_URL; Post METADATA_UPLOAD_URL;
                   Call "launch_token_with_buy"; Call "create_buy_tx"; Submit;
                   Post "https://api.mainnet-beta.solana.com" ] |}).
Proof.
  exact (@main_launch_buys_once_after_a_clean_launch Bench.libraries nat
           (Rig.with_send Rig.accepting Rig.base)
           (Bench.keypair x07) (Bench.keypair x09) Bench.start
           {| world := 0%nat;
              trace := [ Get IMAGE_URL; Post IMAGE_UPLOAD_URL;
                         Post METADATA_UPLOAD_URL ] |}
           (VStr "https://gated.chat/meta/1") [] Bench.transaction [] Rig.signature
           1%nat (Rpc.token_accounts_response [])
           eq_refl eq_refl eq_refl eq_refl eq_refl eq_refl eq_refl).
Defined.

Lemma buffer_from_string_frames_witness :
  let stream := [x03; x00; x00; x00; x61; x62; x63; xff] in
  Z.to_nat (u32_le (firstn 4 stream)) = 3%nat
  /\ string_of_list_byte (firstn 3 (skipn 4 stream)) = "abc"
  /\ skipn 7 stream = [xff].
Proof.
  exact (buffer_from_string_frames "abc" [x03; x00; x00; x00; x61; x62; x63] [xff]
           eq_refl).
Defined.

Lemma make_keypair_from_base58_needs_64_bytes_witness :
  @make_keypair_from_base58 (Rig.with_b58decode (fun _ => Ok [x00]) Bench.libraries)
    nat "secret" Bench.start
  = (Raise (SystemExit 1), Bench.start).
Proof.
  destruct (@make_keypair_from_base58_needs_64_bytes
              (Rig.with_b58decode (fun _ => Ok [x00]) Bench.libraries) nat "secret"
              Bench.start) as (_ & Hlength & _).
  apply (Hlength [x00]); [reflexivity | discriminate].
Defined.

Lemma get_wallet_balance_answers_witness :
  fst (@get_wallet_balance Bench.libraries nat Rig.base (Bench.address x07) Bench.start)
  = Ok 0.2%float
  /\ fst (@get_wallet_balance Bench.libraries nat
            (Rig.with_rpc_answer (Ok (VDict [("error", VStr "node is behind")])) Rig.base)
            (Bench.address x07) Bench.start)
     = Ok 0%float.
Proof.
  split.
  - destruct (@get_wallet_balance_answers Bench.libraries nat Rig.base
                (Bench.address x07) Bench.start) as (Hlamports & _).
    apply (Hlamports _ _ 200000000 200000000%float eq_refl eq_refl eq_refl eq_refl).
  - destruct (@get_wallet_balance_answers Bench.libraries nat
                (Rig.with_rpc_answer (Ok (VDict [("error", VStr "node is behind")]))
                   Rig.base)
                (Bench.address x07) Bench.start) as (_ & Herror & _).
    apply (Herror [("error", VStr "node is behind")]); reflexivity.
Defined.

Lemma get_token_balance_on_other_answers_witness :
  get_token_balance
    (Rig.with_rpc_answer
       (Ok (VDict [("result", VDict [("value", VList [Rpc.token_account (Some 1.5%float);
                                                       VDict []])])]))
       Rig.base)
    "owner" "mint" Bench.start
  = (Ok VNone,
     {| world := 0%nat; trace := [Post "https://api.mainnet-beta.solana.com"] |}).
Proof.
  destruct (get_token_balance_on_other_answers
              (Rig.with_rpc_answer
                 (Ok (VDict [("result",
                              VDict [("value",
                                      VList [Rpc.token_account (Some 1.5%float);
                                             VDict []])])]))
                 Rig.base)
              "owner" "mint" Bench.start) as (_ & Hmalformed & _).
  apply (Hmalformed _ _ _ (VDict []) (Exception "KeyError" "account")
           eq_refl eq_refl eq_refl).
  - right. left. reflexivity.
  - reflexivity.
Defined.

End BeyondOnTheBench.
